(** * A shallow embedding of the feedback / ticket bot (src/index.js)

    The bot keeps its state in one JSON file ([feedback.json]) that every
    helper reads in full and, when it changes something, writes back in full.
    The embedding follows that shape: the backing file is an explicit piece
    of state, the helpers are computations in a small state monad over it,
    and the event handlers are written on top of the helpers exactly as in
    the source.

    The embedding follows src/index.js.  The second source file is an
    earlier revision of it, with the same store helpers and the same
    feedback flow, but without the ticket system and without the [platform]
    key of a feedback record.

    Modelling conventions.
    - A JavaScript number is a double.  The numbers the program meets are
      NaN, the infinities and doubles that hold an integer; an integer double
      is given by the integer it holds, and every arithmetic result is
      rounded to the nearest double ([nearest_double]), so that the model
      agrees with the program above 2^53 as well.  In the file, a number that
      is not finite is written as [null].
    - A JavaScript string is a [string] holding its UTF-8 bytes.  Every
      pattern the program searches for is plain ASCII, so byte-wise search
      agrees with search on code units.
    - The object [db.allowances] is a finite map from user identifiers
      (snowflakes, i.e. digit strings) to numbers.
    - The file is described by the JSON document it holds, because the
      program only touches it through [JSON.parse] and [JSON.stringify].
    - Answers of the chat platform (fetches, sends, replies, channel
      creation) are inputs of the handlers; [fs.writeFileSync] is taken to
      succeed.  The check the embed builder of discord.js makes on the value
      of a field (a string of 1 to 1024 characters, or it throws) is part of
      the model, because the comment of a submission reaches it unchecked.
      The settings of config.json (colour, thumbnail) are taken to be valid.
    - Handlers run one after the other, never interleaved. *)

From Stdlib Require Import ZArith String Ascii List Bool Lia.
From stdpp Require Import base option gmap strings list.

Local Open Scope string_scope.
Local Open Scope list_scope.
Local Open Scope Z_scope.

(** ** Data model *)

Inductive Platform : Type := Mobile | Desktop | Web | Unknown.

(** The object literal built at lines 661-670 of src/index.js.  Records
    written by the earlier revision have no [platform] key. *)
Record FeedbackRecord : Type := mkFeedback {
  userId    : string;
  username  : string;
  rating    : Z;
  comment   : string;
  platform  : option Platform;
  createdAt : string;
  messageId : option string;   (* null when no log message was sent *)
  channelId : option string
}.

(** What an entry of [allowances] holds in the file: a number, which holds
    an integer (the program writes no other), or [null], which is how
    [JSON.stringify] writes a number that is not finite. *)
Inductive JsonValue : Type :=
  | JNumber (z : Z)
  | JNull.

(** The value [loadDb] hands to its callers: both keys are present. *)
Record Store : Type := mkStore {
  feedback   : list FeedbackRecord;
  allowances : gmap string JsonValue
}.

(** What [feedback.json] can hold.
    - [NoFile]: [fs.readFileSync] throws.
    - [NotJson]: the text is not JSON (or is the JSON [null]), so the body of
      the [try] in [loadDb] throws.
    - [JsonDoc fb al]: the text parses to an object; [fb] is its [feedback]
      key when that is an array, [al] its [allowances] key when that is
      present.
    A document of another shape (a top-level number or string, an entry of
    [allowances] that is neither a number nor [null], further keys) is
    never written by the program and is not described. *)
Inductive FileContent : Type :=
  | NoFile
  | NotJson
  | JsonDoc (fb : option (list FeedbackRecord))
            (al : option (gmap string JsonValue)).

(** The file together with the number of [fs.writeFileSync] calls made on it,
    which tells a write of identical text apart from no write at all. *)
Record Disk : Type := mkDisk {
  content : FileContent;
  writes  : nat
}.

(** [JSON.stringify(db, null, 2)] followed by a later [JSON.parse]. *)
Definition serialize (db : Store) : FileContent :=
  JsonDoc (Some (feedback db)) (Some (allowances db)).

(** ** Numbers

    [nearest_double z] is the integer held by the double nearest to the
    integer [z]: [z] itself up to magnitude 2^53, and above that [z] rounded
    to 53 significant bits, a tie going to the even neighbour.  The magnitude
    [a] lies between 2^(52+e) and 2^(53+e); [q] is its leading 53 bits and
    [r] what rounding has to decide on. *)
Definition nearest_double (z : Z) : Z :=
  let a := Z.abs z in
  if a <? 2 ^ 53 then z
  else
    let e := Z.log2 a - 52 in
    let q := a / 2 ^ e in
    let r := a mod 2 ^ e in
    let half := 2 ^ (e - 1) in
    let m := if r <? half then q
             else if half <? r then q + 1
             else if Z.even q then q else q + 1 in
    Z.sgn z * (m * 2 ^ e).

(** The values of type number that the program meets. *)
Inductive number : Type :=
  | NaN
  | Num (z : Z)                 (* a finite double holding the integer [z] *)
  | Infinity (negative : bool).

(** The number value of an integer: the nearest double, or an infinity when
    that is beyond the largest double. *)
Definition to_number (z : Z) : number :=
  let v := nearest_double z in
  if 2 ^ 1024 <=? Z.abs v then Infinity (z <? 0) else Num v.

Definition isNaN (x : number) : bool :=
  match x with NaN => true | _ => false end.

(** [x < k] for an integer constant [k]; false of NaN. *)
Definition less_than (x : number) (k : Z) : bool :=
  match x with
  | NaN => false
  | Num z => z <? k
  | Infinity negative => negative
  end.

(** What [JSON.stringify] writes for a number. *)
Definition json_of (x : number) : JsonValue :=
  match x with
  | Num z => JNumber z
  | NaN | Infinity _ => JNull
  end.

(** ** The state monad of file effects *)

Definition IO (A : Type) : Type := Disk -> A * Disk.

Definition io_ret {A : Type} (a : A) : IO A := fun d => (a, d).

Definition io_bind {A B : Type} (m : IO A) (k : A -> IO B) : IO B :=
  fun d => let '(a, d') := m d in k a d'.

Notation "x <- c ;; k" := (io_bind c (fun x => k))
  (at level 100, c at next level, right associativity).
Notation "c ;;; k" := (io_bind c (fun _ => k))
  (at level 100, right associativity).

(** Running a computation: its result and the disk it leaves. *)
Definition result {A : Type} (m : IO A) (d : Disk) : A := fst (m d).
Definition after  {A : Type} (m : IO A) (d : Disk) : Disk := snd (m d).

(** ** Simple JSON "database" (src/index.js, lines 23-84) *)

Definition emptyDb : Store := mkStore [] ∅.

Definition loadDb : IO Store := fun d =>
  (match content d with
   | NoFile | NotJson => emptyDb
   | JsonDoc fb al => mkStore (default [] fb) (default ∅ al)
   end, d).

Definition saveDb (db : Store) : IO unit := fun d =>
  (tt, mkDisk (serialize db) (S (writes d))).

Definition addFeedback (entry : FeedbackRecord) : IO unit :=
  db <- loadDb ;;
  saveDb (mkStore (feedback db ++ [entry]) (allowances db)).

Definition removeFeedbackByMessageId (mid : string) : IO unit :=
  db <- loadDb ;;
  let before := length (feedback db) in
  let kept := filter (fun f => messageId f ≠ Some mid) (feedback db) in
  let after_ := length kept in
  if bool_decide (after_ ≠ before)
  then saveDb (mkStore kept (allowances db))
  else io_ret tt.

(** Truthiness of a property read: [undefined], [null] and [0] are
    falsy. *)
Definition truthy (v : option JsonValue) : bool :=
  match v with
  | Some (JNumber n) => negb (n =? 0)
  | Some JNull | None => false
  end.

(** The number a property read yields when it yields one. *)
Definition number_read (v : option JsonValue) : Z :=
  match v with
  | Some (JNumber n) => n
  | Some JNull | None => 0
  end.

(** [v || 0]. *)
Definition or_zero (v : option JsonValue) : Z :=
  if truthy v then number_read v else 0.

(** The object is read by nothing between the assignment and [saveDb], so
    the amount is put into it the way [JSON.stringify] will write it. *)
Definition setAllowance (uid : string) (amount : number) : IO unit :=
  db <- loadDb ;;
  saveDb (mkStore (feedback db) (<[uid := json_of amount]> (allowances db))).

Definition getAllowance (uid : string) : IO Z :=
  db <- loadDb ;;
  io_ret (or_zero (allowances db !! uid)).

(** After line 77 the entry of [uid] is a number, so the reads that follow
    yield one; [x -= 1] on a double is the nearest double to [x - 1], which
    is finite when [x] is. *)
Definition decrementAllowance (uid : string) : IO Z :=
  db <- loadDb ;;
  let al := if truthy (allowances db !! uid) then allowances db
            else <[uid := JNumber 0]> (allowances db) in
  if 0 <? number_read (al !! uid)
  then let al' := <[uid := JNumber (nearest_double (number_read (al !! uid) - 1))]> al in
       saveDb (mkStore (feedback db) al') ;;;
       io_ret (number_read (al' !! uid))
  else io_ret (number_read (al !! uid)).

(** The store a later call will see. *)
Definition store_of (d : Disk) : Store := result loadDb d.

(** ** [parseInt(s, 10)]

    ECMAScript: strip leading white space, read an optional sign, then the
    longest prefix of decimal digits; no digit gives [NaN], and otherwise the
    result is the number value of the integer read (correctly rounded, as
    Node.js computes it; the standard lets an implementation neglect digits
    after the twentieth).
    White space is TAB, LF, VT, FF, CR, SP and, in their UTF-8 encoding,
    U+00A0, U+1680, U+2000..U+200A, U+2028, U+2029, U+202F, U+205F, U+3000 and
    U+FEFF. *)

Definition code (c : ascii) : N := N_of_ascii c.

Definition is_ascii_space (c : ascii) : bool :=
  ((9 <=? code c) && (code c <=? 13) || (code c =? 32))%N.

Definition is_space2 (a b : ascii) : bool :=
  ((code a =? 194) && (code b =? 160))%N.

Definition is_space3 (a b c : ascii) : bool :=
  ((code a =? 225) && (code b =? 154) && (code c =? 128)
   || (code a =? 226) && (code b =? 128)
      && ((128 <=? code c) && (code c <=? 138)
          || (code c =? 168) || (code c =? 169) || (code c =? 175))
   || (code a =? 226) && (code b =? 129) && (code c =? 159)
   || (code a =? 227) && (code b =? 128) && (code c =? 128)
   || (code a =? 239) && (code b =? 187) && (code c =? 191))%N.

Fixpoint skip_space (s : string) : string :=
  match s with
  | EmptyString => s
  | String a s1 =>
    if is_ascii_space a then skip_space s1
    else match s1 with
         | EmptyString => s
         | String b s2 =>
           if is_space2 a b then skip_space s2
           else match s2 with
                | EmptyString => s
                | String c s3 => if is_space3 a b c then skip_space s3 else s
                end
         end
  end.

(** [\d] and the digits of radix 10: the ASCII characters 0 to 9. *)
Definition is_digit (c : ascii) : bool :=
  ((48 <=? code c) && (code c <=? 57))%N.

Definition digit_value (c : ascii) : Z := Z.of_N (code c) - 48.

Fixpoint read_digits (acc : Z) (s : string) : Z :=
  match s with
  | String c s' =>
    if is_digit c then read_digits (10 * acc + digit_value c) s' else acc
  | EmptyString => acc
  end.

Definition starts_with_digit (s : string) : bool :=
  match s with
  | String c _ => is_digit c
  | EmptyString => false
  end.

(** What follows the white space: sign and digits. *)
Definition parseInt_body (s : string) : number :=
  let '(sign, body) :=
    match s with
    | String "-"%char r => (-1, r)
    | String "+"%char r => (1, r)
    | _ => (1, s)
    end in
  if starts_with_digit body then to_number (sign * read_digits 0 body) else NaN.

Definition parseInt (str : string) : number := parseInt_body (skip_space str).

(** ** Message commands: [!allow @user amount] (lines 178-220)

    The permission check, the first mentioned member and the words of the
    message ([rawContent.split(/\s+/)]) are inputs. *)

Record User : Type := mkUser {
  user_id   : string;
  user_name : string;
  user_tag  : string
}.

Record AllowCommand : Type := mkAllow {
  sender_is_staff : bool;           (* member.roles.cache.has(requiredRoleId) *)
  args            : list string;    (* rawContent.split(/\s+/) *)
  target          : option User     (* message.mentions.members.first() *)
}.

Inductive AllowReply : Type :=
  | AllowNoPermission
  | AllowUsage
  | AllowNotPositive
  | AllowGranted (tag : string) (amount : number).

(** [parseInt(args[2], 10)]; a missing word reads as [undefined], which
    parses to [NaN]. *)
Definition parsed_amount (c : AllowCommand) : number :=
  match args c !! 2%nat with
  | Some w => parseInt w
  | None => NaN
  end.

Definition allow_command (c : AllowCommand) : IO AllowReply :=
  if negb (sender_is_staff c) then io_ret AllowNoPermission
  else match target c with
       | None => io_ret AllowUsage
       | Some t =>
         if (length (args c) <? 3)%nat then io_ret AllowUsage
         else
           let amount := parsed_amount c in
           if isNaN amount || less_than amount 1 then io_ret AllowNotPositive
           else setAllowance (user_id t) amount ;;;
                io_ret (AllowGranted (user_tag t) amount)
       end.

(** ** Feedback: button and modal (lines 305-342 and 587-689) *)

Inductive ButtonReply : Type :=
  | ButtonNotAllowed
  | ButtonShowModal.

Definition feedback_create (u : User) : IO ButtonReply :=
  remaining <- getAllowance (user_id u) ;;
  if remaining <=? 0 then io_ret ButtonNotAllowed else io_ret ButtonShowModal.

(** [member?.presence?.clientStatus]: which of its keys are set. *)
Record ClientStatus : Type := mkStatus {
  on_mobile  : bool;
  on_desktop : bool;
  on_web     : bool
}.

(** [client.channels.fetch(logChannelId)]. *)
Inductive LogChannel : Type :=
  | FetchThrows
  | FetchedNothing
  | Fetched (textBased : bool).

(** [logChannel.send(...)]: the message it resolves to, or a rejection. *)
Inductive SendOutcome : Type :=
  | SendThrows
  | Sent (id : string) (channel : string).

(** Everything the platform and the clock answer during one submission. *)
Record PlatformAnswers : Type := mkAnswers {
  in_guild      : bool;
  client_status : option ClientStatus;
  log_channel   : LogChannel;
  send_outcome  : SendOutcome;
  clock         : string               (* new Date().toISOString() *)
}.

Record ModalSubmit : Type := mkSubmit {
  rating_input  : string;
  comment_input : string;
  submitter     : User;
  answers       : PlatformAnswers
}.

Inductive ModalReply : Type :=
  | RatingRangeError
  | ModalNotAllowed
  | Submitted (left : Z)
  | SavingFailed.

Definition detect_platform (a : PlatformAnswers) : Platform :=
  if in_guild a then
    match client_status a with
    | Some cs =>
      if on_mobile cs then Mobile
      else if on_desktop cs then Desktop
      else if on_web cs then Web
      else Unknown
    | None => Unknown
    end
  else Unknown.

Definition nonempty (s : string) : bool :=
  match s with EmptyString => false | _ => true end.

(** [s.length]: the number of UTF-16 code units of a string given by its
    UTF-8 bytes.  A byte below 128 and the lead byte of a sequence of two or
    three bytes (192 to 239) stand for one unit, the lead byte of a sequence
    of four (240 and above) for two, a continuation byte (128 to 191) for
    none. *)
Fixpoint js_length (s : string) : nat :=
  match s with
  | EmptyString => 0
  | String c s' =>
    ((if (code c <? 128)%N then 1
      else if (code c <? 192)%N then 0
      else if (code c <? 240)%N then 1 else 2)
     + js_length s')%nat
  end.

(** The check [addFields] makes on the value of a field: a string of 1 to
    1024 characters.  The builder throws when it fails. *)
Definition field_value_ok (v : string) : bool :=
  ((1 <=? js_length v) && (js_length v <=? 1024))%nat.

(** The values of the fields User and Comment (lines 641 and 648).  The
    other two values are a rating from 1 to 5 followed by a fixed text, and
    one of four fixed words; they always pass the check. *)
Definition user_field (u : User) : string :=
  user_name u +:+ " (ID: " +:+ user_id u +:+ ")".

Definition comment_field (comment : string) : string :=
  if nonempty comment then comment else "*No comment provided*".

(** Whether the construction of the embed (lines 636-651) returns. *)
Definition embed_builds (m : ModalSubmit) : bool :=
  field_value_ok (user_field (submitter m)) &&
  field_value_ok (comment_field (comment_input m)).

(** The part of the [try] block before the store is touched: [None] when
    it throws, otherwise [sentMessage] (which may be [null]).  The log
    channel is fetched, then the embed is built, then it is sent. *)
Definition post_to_log (m : ModalSubmit) : option (option (string * string)) :=
  match log_channel (answers m) with
  | FetchThrows => None
  | fetched =>
    if negb (embed_builds m) then None
    else match fetched with
         | Fetched true =>
           match send_outcome (answers m) with
           | SendThrows => None
           | Sent id ch => Some (Some (id, ch))
           end
         | _ => Some None
         end
  end.

Definition build_entry (m : ModalSubmit) (r : Z)
    (sent : option (string * string)) : FeedbackRecord :=
  {| userId    := user_id (submitter m);
     username  := user_name (submitter m);
     rating    := r;
     comment   := comment_input m;
     platform  := Some (detect_platform (answers m));
     createdAt := clock (answers m);
     messageId := fst <$> sent;
     channelId := snd <$> sent |}.

(** The check of line 596 turns down NaN by [isNaN], plus infinity by
    [rating > 5] and minus infinity by [rating < 1]. *)
Definition feedback_modal (m : ModalSubmit) : IO ModalReply :=
  match parseInt (rating_input m) with
  | NaN | Infinity _ => io_ret RatingRangeError
  | Num r =>
    if (r <? 1) || (5 <? r) then io_ret RatingRangeError
    else
      remaining <- getAllowance (user_id (submitter m)) ;;
      if remaining <=? 0 then io_ret ModalNotAllowed
      else match post_to_log m with
           | None => io_ret SavingFailed
           | Some sent =>
             addFeedback (build_entry m r sent) ;;;
             left <- decrementAllowance (user_id (submitter m)) ;;
             io_ret (Submitted left)
           end
  end.

(** ** The web API: [GET /api/feedback-logs] (lines 123-133) *)

Inductive HttpResponse : Type :=
  | Json200 (body : list FeedbackRecord)
  | Error500.

Definition get_feedback_logs : IO HttpResponse :=
  db <- loadDb ;;
  let all := feedback db in
  let sorted := rev all in
  io_ret (Json200 sorted).

(** ** [messageDelete] (lines 693-708) *)

Record DeletedMessage : Type := mkDeleted {
  deleted_id        : string;           (* empty when unknown *)
  deleted_channelId : option string;
  deleted_channel   : option string     (* message.channel.id *)
}.

Definition messageDelete (config_channelId : string)
    (m : DeletedMessage) : IO unit :=
  if negb (nonempty (deleted_id m)) then io_ret tt
  else
    let chan :=
      match deleted_channelId m with
      | Some c => if nonempty c then Some c else deleted_channel m
      | None => deleted_channel m
      end in
    match chan with
    | None => io_ret tt
    | Some c =>
      if negb (nonempty c) then io_ret tt
      else if negb (String.eqb c config_channelId) then io_ret tt
      else removeFeedbackByMessageId (deleted_id m)
    end.

(** ** Ticket system (lines 86-101, 344-401 and 455-585) *)

Definition TICKET_CATEGORY_ID : string := "1447986703250882580".

(** [TICKET_TYPES]: label and value of each menu entry. *)
Definition TICKET_TYPES : list (string * string) :=
  [ ("General Support", "general");
    ("Purchase / Order Issue", "purchase");
    ("Bug / Technical Issue", "bug");
    ("Other Question", "other") ].

Definition prettyTicketLabel (value : string) : string :=
  match List.find (fun t => String.eqb (snd t) value) TICKET_TYPES with
  | Some found => fst found
  | None => value
  end.

Inductive ChannelType : Type := GuildText | GuildCategory | OtherChannelType.

(** The fields of a guild channel that the handlers read or set.  The name
    and the permission overwrites are not read anywhere. *)
Record Channel : Type := mkChannel {
  channel_id   : string;
  channel_type : ChannelType;
  parentId     : option string;
  topic        : option string
}.

(** [guild.channels.cache], in insertion order. *)
Abbreviation Cache := (list Channel) (only parsing).

Definition cache_get (id : string) (cache : Cache) : option Channel :=
  List.find (fun ch => String.eqb (channel_id ch) id) cache.

(** [s.includes(needle)]. *)
Fixpoint includes (needle s : string) : bool :=
  String.prefix needle s ||
  match s with
  | EmptyString => false
  | String _ s' => includes needle s'
  end.

(** The predicate handed to [cache.find] at lines 478-483. *)
Definition is_ticket_of (uid : string) (ch : Channel) : bool :=
  match parentId ch with
  | Some p => String.eqb p TICKET_CATEGORY_ID
  | None => false
  end &&
  match topic ch with
  | Some t => nonempty t && includes ("UserID:" +:+ uid) t
  | None => false
  end.

(** The template literal of lines 504-506. *)
Definition ticket_topic (u : User) (selection : string) : string :=
  "Ticket for " +:+ user_tag u +:+ " (UserID:" +:+ user_id u +:+ ") | Type: "
  +:+ prettyTicketLabel selection.

(** What the platform answers to a creation: the identifier of the new
    channel ([None]: [guild.channels.create] rejects) and whether the
    introductory message could be sent to it. *)
Record Creation : Type := mkCreation {
  new_channel_id : option string;
  intro_sent     : bool
}.

Inductive TicketReply : Type :=
  | TicketServerOnly
  | TicketMisconfigured
  | TicketAlreadyOpen (existing : Channel)
  | TicketCreated (newChannel : Channel)
  | TicketFailed.

(** The handler returns its reply, the channel it created (if any) and the
    cache afterwards. *)
Record TicketOutcome : Type := mkOutcome {
  reply   : TicketReply;
  created : option Channel;
  cache_after : Cache
}.

Definition ticket_select (guild : option Cache) (u : User)
    (selection : string) (ext : Creation) : TicketOutcome :=
  match guild with
  | None => mkOutcome TicketServerOnly None []
  | Some cache =>
    match cache_get TICKET_CATEGORY_ID cache with
    | None => mkOutcome TicketMisconfigured None cache
    | Some category =>
      match channel_type category with
      | GuildCategory =>
        match List.find (is_ticket_of (user_id u)) cache with
        | Some existing => mkOutcome (TicketAlreadyOpen existing) None cache
        | None =>
          match new_channel_id ext with
          | None => mkOutcome TicketFailed None cache
          | Some id =>
            let newChannel :=
              mkChannel id GuildText (Some TICKET_CATEGORY_ID)
                        (Some (ticket_topic u selection)) in
            mkOutcome (if intro_sent ext then TicketCreated newChannel
                       else TicketFailed)
                      (Some newChannel) (cache ++ [newChannel])
          end
        end
      | _ => mkOutcome TicketMisconfigured None cache
      end
    end
  end.

(** [/UserID:(\d{17,19})/]: at one position, the literal prefix followed by
    as many digits as possible, at most 19 and at least 17. *)
Fixpoint take_digits (n : nat) (s : string) : string :=
  match n, s with
  | S n', String c s' =>
    if is_digit c then String c (take_digits n' s') else EmptyString
  | _, _ => EmptyString
  end.

Fixpoint drop_prefix (p s : string) : option string :=
  match p, s with
  | EmptyString, _ => Some s
  | String a p', String b s' =>
    if Ascii.eqb a b then drop_prefix p' s' else None
  | String _ _, EmptyString => None
  end.

Definition match_here (s : string) : option string :=
  match drop_prefix "UserID:" s with
  | Some rest =>
    let ds := take_digits 19 rest in
    if (17 <=? String.length ds)%nat then Some ds else None
  | None => None
  end.

(** [topic.match(/UserID:(\d{17,19})/)], reduced to its capture group: the
    leftmost position at which the pattern matches wins. *)
Fixpoint match_user_id (s : string) : option string :=
  match match_here s with
  | Some ds => Some ds
  | None =>
    match s with
    | EmptyString => None
    | String _ s' => match_user_id s'
    end
  end.

(** [topic || '']. *)
Definition or_empty (v : option string) : string :=
  match v with
  | Some t => t
  | None => EmptyString
  end.

Inductive NotifyReply : Type :=
  | NotifyNoPermission
  | NotifyNoOwner
  | NotifyFetchFailed
  | Notified (owner : User)
  | NotifyDmBlocked.

(** The Notify button.  [fetch] is [client.users.fetch] ([None] when it
    throws), [dm_ok] whether [user.send] goes through. *)
Definition ticket_notify (staff : bool) (chan_topic : option string)
    (fetch : string -> option User) (dm_ok : bool) : NotifyReply :=
  if negb staff then NotifyNoPermission
  else match match_user_id (or_empty chan_topic) with
       | None => NotifyNoOwner
       | Some uid =>
         match fetch uid with
         | None => NotifyFetchFailed
         | Some user => if dm_ok then Notified user else NotifyDmBlocked
         end
       end.

(** ** Runs: sequences of events handled one after the other *)

(** The operations of the allowance gate as the bot performs them: a grant
    is an [!allow] command, the other two are the helpers themselves. *)
Inductive AllowanceOp : Type :=
  | OpGrant (c : AllowCommand)
  | OpGet (uid : string)
  | OpDecrement (uid : string).

Definition run_op (o : AllowanceOp) : IO unit :=
  match o with
  | OpGrant c => allow_command c ;;; io_ret tt
  | OpGet uid => getAllowance uid ;;; io_ret tt
  | OpDecrement uid => decrementAllowance uid ;;; io_ret tt
  end.

Fixpoint run_ops (os : list AllowanceOp) : IO unit :=
  match os with
  | [] => io_ret tt
  | o :: os' => run_op o ;;; run_ops os'
  end.


(** Records appended in order by [addFeedback]. *)
Fixpoint add_all (es : list FeedbackRecord) : IO unit :=
  match es with
  | [] => io_ret tt
  | e :: es' => addFeedback e ;;; add_all es'
  end.

(** Events of the ticket category: a member picks a menu entry, or the
    platform reports that a channel is gone (the end of a close). *)
Inductive TicketEvent : Type :=
  | Select (u : User) (selection : string) (ext : Creation)
  | ChannelDeleted (id : string).

(** The guild as the handlers see it, together with the open tickets the
    bot has created, each with the identifier of the member it was created
    for.  The second component is bookkeeping for stating properties; no
    handler reads it. *)
Record Guild : Type := mkGuild {
  channels     : list Channel;
  open_tickets : list (string * Channel)
}.

Definition not_id (id : string) (ch : Channel) : bool :=
  negb (String.eqb (channel_id ch) id).

Definition ticket_step (e : TicketEvent) (g : Guild) : Guild :=
  match e with
  | Select u selection ext =>
    let out := ticket_select (Some (channels g)) u selection ext in
    mkGuild (cache_after out)
            (match created out with
             | Some ch => open_tickets g ++ [(user_id u, ch)]
             | None => open_tickets g
             end)
  | ChannelDeleted id =>
    mkGuild (List.filter (not_id id) (channels g))
            (List.filter (fun t => not_id id (snd t)) (open_tickets g))
  end.

Fixpoint ticket_run (es : list TicketEvent) (g : Guild) : Guild :=
  match es with
  | [] => g
  | e :: es' => ticket_run es' (ticket_step e g)
  end.

(** The open tickets created for member [uid]. *)
Definition tickets_of (uid : string) (g : Guild) : list (string * Channel) :=
  List.filter (fun t => String.eqb (fst t) uid) (open_tickets g).

(** ** The whole [messageCreate] handler (lines 165-300)

    [lowered] is [rawContent.trim().toLowerCase()]; the words, the permission
    check and the mention are those of [AllowCommand].  [panel_sent] tells
    whether the [channel.send] of a panel goes through. *)

Record Message : Type := mkMessage {
  author_is_bot : bool;            (* message.author.bot *)
  has_guild     : bool;            (* message.guild *)
  lowered       : string;
  command       : AllowCommand;
  panel_sent    : bool
}.

Inductive MessageReply : Type :=
  | MsgIgnored
  | MsgPong
  | MsgAllow (r : AllowReply)
  | MsgNoPermission
  | MsgFeedbackPanel
  | MsgTicketPanel
  | MsgPanelFailed.

Definition messageCreate (m : Message) : IO MessageReply :=
  if author_is_bot m || negb (has_guild m) then io_ret MsgIgnored
  else if String.eqb (lowered m) "ping" then io_ret MsgPong
  else if String.prefix "!allow" (lowered m) then
    r <- allow_command (command m) ;;
    io_ret (MsgAllow r)
  else if String.eqb (lowered m) "!feedback" then
    if negb (sender_is_staff (command m)) then io_ret MsgNoPermission
    else if panel_sent m then io_ret MsgFeedbackPanel
    else io_ret MsgPanelFailed
  else if String.eqb (lowered m) "!ticketpanel" then
    if negb (sender_is_staff (command m)) then io_ret MsgNoPermission
    else if panel_sent m then io_ret MsgTicketPanel
    else io_ret MsgPanelFailed
  else io_ret MsgIgnored.

(** ** The Close button (lines 403-452) *)

Inductive CloseReply : Type :=
  | CloseNoPermission
  | CloseClosing.

(** What a press of Close leads to: the reply the handler makes, the
    member who is sent the closing notice (if any), and whether the deletion
    of the channel is scheduled. *)
Record CloseOutcome : Type := mkClose {
  close_reply   : CloseReply;
  close_notice  : option User;
  close_deletes : bool
}.

(** [fetch] is [client.users.fetch] ([None] when it throws); [reply_ok]
    tells whether [interaction.reply] resolves.  The notice is sent before
    the reply; the timer of the deletion is set after the awaited reply, so
    a reply that rejects leaves the channel. *)
Definition ticket_close (staff : bool) (chan_topic : option string)
    (fetch : string -> option User) (reply_ok : bool) : CloseOutcome :=
  if negb staff then mkClose CloseNoPermission None false
  else
    let user :=
      match match_user_id (or_empty chan_topic) with
      | Some uid => fetch uid
      | None => None
      end in
    mkClose CloseClosing user reply_ok.

(** ** The name of a ticket channel (lines 492-497)

    [username.toLowerCase().replace(/[^a-z0-9]/g, '')], on UTF-8 bytes.
    Lower-casing turns A-Z into a-z; of the characters outside ASCII only
    U+212A (KELVIN SIGN, bytes 226 132 170) becomes an ASCII letter, [k], and
    U+0130 (bytes 196 176) becomes [i] followed by a combining mark.  Every
    other character outside ASCII stays outside ASCII and is removed by the
    [replace]. *)

Definition is_upper (c : ascii) : bool :=
  ((65 <=? code c) && (code c <=? 90))%N.

Definition is_lower_alnum (c : ascii) : bool :=
  is_digit c || ((97 <=? code c) && (code c <=? 122))%N.

Definition to_lower (c : ascii) : ascii := ascii_of_N (code c + 32).

Fixpoint lower_alnum (s : string) : string :=
  match s with
  | EmptyString => EmptyString
  | String a s1 =>
    if is_upper a then String (to_lower a) (lower_alnum s1)
    else if is_lower_alnum a then String a (lower_alnum s1)
    else match s1 with
         | EmptyString => EmptyString
         | String b s2 =>
           if ((code a =? 196) && (code b =? 176))%N
           then String "i" (lower_alnum s2)
           else match s2 with
                | EmptyString => lower_alnum s1
                | String c s3 =>
                  if ((code a =? 226) && (code b =? 132) && (code c =? 170))%N
                  then String "k" (lower_alnum s3)
                  else lower_alnum s1
                end
         end
  end.

Definition baseName (u : User) : string :=
  let cleaned := lower_alnum (user_name u) in
  if nonempty cleaned then cleaned else "user".

Definition channelName (u : User) : string :=
  String.substring 0 90 ("ticket-" +:+ baseName u).

(** ** Everything that touches the file, as one stream of events *)

Inductive BotEvent : Type :=
  | OnMessage (m : Message)
  | OnButton (u : User)
  | OnModal (m : ModalSubmit)
  | OnMessageDelete (m : DeletedMessage)
  | OnGetLogs.

Definition bot_step (config_channelId : string) (e : BotEvent) : IO unit :=
  match e with
  | OnMessage m => messageCreate m ;;; io_ret tt
  | OnButton u => feedback_create u ;;; io_ret tt
  | OnModal m => feedback_modal m ;;; io_ret tt
  | OnMessageDelete m => messageDelete config_channelId m
  | OnGetLogs => get_feedback_logs ;;; io_ret tt
  end.

Fixpoint bot_run (config_channelId : string) (es : list BotEvent) : IO unit :=
  match es with
  | [] => io_ret tt
  | e :: es' => bot_step config_channelId e ;;; bot_run config_channelId es'
  end.

(** ** Vocabulary of the properties *)

(** No user has a negative quota on file. *)
Definition no_negative_allowance (d : Disk) : Prop :=
  map_Forall (fun _ v => match v with JNumber z => 0 <= z | JNull => True end)
             (allowances (store_of d)).

(** The file holds exactly the serialization of the store it yields. *)
Definition holds_its_store (d : Disk) : Prop :=
  content d = serialize (store_of d).

(** The rating field passes the check of line 596. *)
Definition valid_rating (s : string) : bool :=
  match parseInt s with
  | Num r => (1 <=? r) && (r <=? 5)
  | NaN | Infinity _ => false
  end.

(** The rating a valid field stands for. *)
Definition rating_of (s : string) : Z :=
  match parseInt s with
  | Num r => r
  | NaN | Infinity _ => 0
  end.

(** A submission that gets past the rating check and whose log post does
    not throw: the log channel is fetched, the embed is built, and the
    message, if one is sent, is sent. *)
Definition goes_through (m : ModalSubmit) : bool :=
  valid_rating (rating_input m) && bool_decide (is_Some (post_to_log m)).

(** The same, said without the handler: what it takes, besides quota, for
    a submission to be accepted.  The rating parses to an integer from 1 to
    5; the fetch of the log channel does not throw; the value of the User
    field is of 1 to 1024 characters and the comment is empty or of 1 to
    1024 characters, which is what the embed builder takes; and the send,
    which is made when the channel is text-based, does not throw. *)
Definition fields_fit (m : ModalSubmit) : Prop :=
  (1 <= js_length (user_field (submitter m)) <= 1024)%nat /\
  (comment_input m = EmptyString \/
   (1 <= js_length (comment_input m) <= 1024)%nat).


(** The record such a submission appends. *)
Definition submitted_entry (m : ModalSubmit) : FeedbackRecord :=
  build_entry m (rating_of (rating_input m)) (default None (post_to_log m)).


(** [ch] is a channel of the guild under the configured ticket category:
    the category is in the guild, is a category, and is the parent of [ch]. *)
Definition under_ticket_category (cache : Cache) (ch : Channel) : Prop :=
  In ch cache /\
  parentId ch = Some TICKET_CATEGORY_ID /\
  exists category,
    cache_get TICKET_CATEGORY_ID cache = Some category /\
    channel_type category = GuildCategory.

(** The topic [t] contains [UserID:<uid>]. *)
Definition names_member (uid t : string) : Prop :=
  exists before rest, t = before +:+ "UserID:" +:+ uid +:+ rest.

(** [ch] is a ticket of member [uid]: a channel whose parent is the ticket
    category and whose topic contains [UserID:<uid>]. *)
Definition ticket_for (uid : string) (ch : Channel) : Prop :=
  parentId ch = Some TICKET_CATEGORY_ID /\
  exists t, topic ch = Some t /\ names_member uid t.

(** The bookkeeping is accurate: every recorded open ticket is a channel of
    the guild and a ticket of its member. *)
Definition tickets_recorded (g : Guild) : Prop :=
  Forall (fun t => In (snd t) (channels g) /\ ticket_for (fst t) (snd t))
         (open_tickets g).

(** At most one open ticket per member. *)
Definition one_ticket_each (g : Guild) : Prop :=
  forall uid, (length (tickets_of uid g) <= 1)%nat.

(** A stored record as the modal handler writes them: a rating from 1 to
    5, and a link to the log message that is either complete or absent. *)
Definition record_ok (f : FeedbackRecord) : Prop :=
  1 <= rating f <= 5 /\ (messageId f = None <-> channelId f = None).

Definition store_ok (d : Disk) : Prop :=
  Forall record_ok (feedback (store_of d)) /\ no_negative_allowance d.

(** The amounts an [!allow] command lets through: [isNaN(amount)] and
    [amount < 1] are both false. *)
Definition at_least_one (x : number) : Prop :=
  match x with
  | NaN => False
  | Num z => 1 <= z
  | Infinity negative => negative = false
  end.

(** The quota of [uid] as [getAllowance] reads it. *)
Definition quota (uid : string) (d : Disk) : Z := result (getAllowance uid) d.


(** [n] calls of [decrementAllowance(uid)] in a row. *)
Definition decrement_times (n : nat) (uid : string) : IO unit :=
  run_ops (repeat (OpDecrement uid) n).

(** All characters are lower-case letters or digits. *)
Fixpoint all_lower_alnum (s : string) : bool :=
  match s with
  | EmptyString => true
  | String c s' => is_lower_alnum c && all_lower_alnum s'
  end.

(** The channel a deleted message is taken to have been in (line 698). *)
Definition deleted_in (m : DeletedMessage) : option string :=
  match deleted_channelId m with
  | Some c => if nonempty c then Some c else deleted_channel m
  | None => deleted_channel m
  end.

(** All bytes are 128 or above: the string consists of characters outside
    ASCII only. *)
Fixpoint all_high (s : string) : bool :=
  match s with
  | EmptyString => true
  | String c s' => (128 <=? code c)%N && all_high s'
  end.

(** A string of 17 to 19 decimal digits. *)
Fixpoint all_digits (s : string) : bool :=
  match s with
  | EmptyString => true
  | String c s' => is_digit c && all_digits s'
  end.

Definition is_snowflake (s : string) : bool :=
  all_digits s && (17 <=? String.length s)%nat && (String.length s <=? 19)%nat.

(** ** Sanity checks on concrete inputs *)

(** A number of 310 digits, too large for a double, and a text of 1025
    characters, too long for the value of an embed field. *)
Definition nines_310 : string := string_of_list_ascii (repeat "9"%char 310).

Definition long_comment : string := string_of_list_ascii (repeat "a"%char 1025).

Example parseInt_rounds :
  (parseInt "9007199254740992", parseInt "9007199254740993",
   parseInt "18014398509481983", parseInt nines_310,
   parseInt ("-" +:+ nines_310), nearest_double (2 ^ 54 - 1))
  = (Num (2 ^ 53), Num (2 ^ 53), Num (2 ^ 54), Infinity false, Infinity true,
     2 ^ 54).
Proof. vm_compute. reflexivity. Qed.

Example embed_examples :
  (js_length "great", js_length long_comment,
   field_value_ok long_comment, field_value_ok (comment_field EmptyString),
   js_length (String (ascii_of_N 240) (String (ascii_of_N 159)
               (String (ascii_of_N 152) (String (ascii_of_N 128) "!")))))
  = (5%nat, 1025%nat, false, true, 3%nat).
Proof. vm_compute. reflexivity. Qed.

Example parseInt_examples :
  (parseInt "4", parseInt " 5x", parseInt "-0", parseInt "+12", parseInt "a1",
   parseInt EmptyString, parseInt "6", parseInt "-", parseInt "3.9")
  = (Num 4, Num 5, Num 0, Num 12, NaN, NaN, Num 6, NaN, Num 3).
Proof. vm_compute. reflexivity. Qed.

Example decrement_demo :
  let d := after (setAllowance "42" (Num 2)) (mkDisk NoFile 0) in
  (result (decrementAllowance "42") d,
   result (decrementAllowance "42") (after (decrementAllowance "42") d),
   result (decrementAllowance "7") d) = (1, 0, 0).
Proof. vm_compute. reflexivity. Qed.

Example match_user_id_examples :
  (match_user_id "Ticket for bob (UserID:123456789012345678) | Type: Other Question",
   match_user_id "UserID:1234567890123456",
   match_user_id "UserID:12345678901234567890123",
   match_user_id "UserID:12 UserID:99999999999999999")
  = (Some "123456789012345678", None, Some "1234567890123456789",
     Some "99999999999999999").
Proof. vm_compute. reflexivity. Qed.

Example ticket_run_demo :
  let category := mkChannel TICKET_CATEGORY_ID GuildCategory None None in
  let ann := mkUser "123456789012345678" "ann" "ann#0001" in
  let bob := mkUser "223456789012345678" "bob" "bob" in
  let run := fun es => ticket_run es (mkGuild [category] []) in
  (length (open_tickets (run [Select ann "bug" (mkCreation (Some "500") true);
                              Select ann "other" (mkCreation (Some "501") true);
                              Select bob "other" (mkCreation (Some "502") true)])),
   length (open_tickets (run [Select ann "bug" (mkCreation (Some "500") true);
                              ChannelDeleted "500";
                              Select ann "other" (mkCreation (Some "501") true)])),
   reply (ticket_select (Some []) ann "bug" (mkCreation (Some "500") true)),
   prettyTicketLabel "purchase", prettyTicketLabel "custom")
  = (2%nat, 1%nat, TicketMisconfigured, "Purchase / Order Issue", "custom").
Proof. vm_compute. reflexivity. Qed.

Example channelName_examples :
  (channelName (mkUser "1" "Bob_99!" "t"),
   channelName (mkUser "1" "-- --" "t"),
   lower_alnum (String (ascii_of_N 226) (String (ascii_of_N 132)
                  (String (ascii_of_N 170) "Elvin"))),
   String.length (channelName (mkUser "1"
     "aaaaaaaaaabbbbbbbbbbccccccccccddddddddddeeeeeeeeeeffffffffffgggggggggghhhhhhhhhhiiiiiiiiii"
     "t")))
  = ("ticket-bob99", "ticket-user", "kelvin", 90%nat).
Proof. vm_compute. reflexivity. Qed.

Example messageCreate_examples :
  let ann := mkUser "7" "ann" "ann#0001" in
  let msg := fun text staff =>
    mkMessage false true text (mkAllow staff ["!allow"; "<@7>"; "3"] (Some ann)) true in
  (result (messageCreate (msg "ping" false)) (mkDisk NoFile 0),
   result (messageCreate (msg "!allow <@7> 3" true)) (mkDisk NoFile 0),
   result (messageCreate (msg "!feedback" false)) (mkDisk NoFile 0),
   result (messageCreate (msg "!ticketpanel" true)) (mkDisk NoFile 0),
   result (messageCreate (msg "hello" true)) (mkDisk NoFile 0))
  = (MsgPong, MsgAllow (AllowGranted "ann#0001" (Num 3)), MsgNoPermission,
     MsgTicketPanel, MsgIgnored).
Proof. vm_compute. reflexivity. Qed.

(** * Properties *)

(** ** What each helper does to the file *)

Section StoreHelpers.

Implicit Types (d : Disk) (u : string) (db : Store).

Lemma store_of_serialize db n : store_of (mkDisk (serialize db) n) = db.
Proof. by destruct db. Qed.

Lemma saveDb_run db d : saveDb db d = (tt, mkDisk (serialize db) (S (writes d))).
Proof. reflexivity. Qed.

Lemma saved_holds_its_store db n : holds_its_store (mkDisk (serialize db) n).
Proof. unfold holds_its_store. by rewrite store_of_serialize. Qed.

(** Up to 2^53 every integer is a double. *)
Lemma nearest_double_small (z : Z) :
  Z.abs z < 2 ^ 53 -> nearest_double z = z.
Proof.
  intros H. unfold nearest_double.
  destruct (Z.ltb_spec (Z.abs z) (2 ^ 53)); [reflexivity | lia].
Qed.

Lemma nearest_double_nonneg (z : Z) : 0 <= z -> 0 <= nearest_double z.
Proof.
  intros Hz. unfold nearest_double.
  destruct (Z.abs z <? 2 ^ 53); [exact Hz|].
  set (e := Z.log2 (Z.abs z) - 52).
  assert (Hp : 0 <= 2 ^ e) by (apply Z.pow_nonneg; lia).
  assert (Hq : 0 <= Z.abs z / 2 ^ e).
  { destruct (Z.eq_dec (2 ^ e) 0) as [E|E]; [rewrite E, Z.div_0_r; lia|].
    apply Z.div_pos; lia. }
  set (q := Z.abs z / 2 ^ e) in *.
  set (r := Z.abs z mod 2 ^ e). set (h := 2 ^ (e - 1)).
  apply Z.mul_nonneg_nonneg; [lia|].
  apply Z.mul_nonneg_nonneg; [|exact Hp].
  destruct (r <? h); [lia|]. destruct (h <? r); [lia|]. destruct (Z.even q); lia.
Qed.

Lemma to_number_small (z : Z) : Z.abs z < 2 ^ 53 -> to_number z = Num z.
Proof.
  intros H. unfold to_number. rewrite nearest_double_small by exact H.
  destruct (Z.leb_spec (2 ^ 1024) (Z.abs z)) as [Hbig|]; [|reflexivity].
  exfalso. assert (2 ^ 53 < 2 ^ 1024) by (apply Z.pow_lt_mono_r; lia). lia.
Qed.

Lemma getAllowance_run u d :
  getAllowance u d = (or_zero (allowances (store_of d) !! u), d).
Proof. reflexivity. Qed.

Lemma setAllowance_run u (n : number) d :
  setAllowance u n d =
    (tt, mkDisk (serialize (mkStore (feedback (store_of d))
                                    (<[u := json_of n]> (allowances (store_of d)))))
                (S (writes d))).
Proof. reflexivity. Qed.

Lemma addFeedback_run e d :
  addFeedback e d =
    (tt, mkDisk (serialize (mkStore (feedback (store_of d) ++ [e])
                                    (allowances (store_of d))))
                (S (writes d))).
Proof. reflexivity. Qed.

(** [x || 0] returns [x] itself whenever [x] is a number. *)
Lemma or_zero_Some n : or_zero (Some (JNumber n)) = n.
Proof.
  unfold or_zero, truthy, number_read.
  destruct (Z.eqb_spec n 0) as [->|]; reflexivity.
Qed.

Lemma or_zero_insert_eq u n (al : gmap string JsonValue) :
  or_zero (<[u := JNumber n]> al !! u) = n.
Proof. by rewrite lookup_insert_eq, or_zero_Some. Qed.

(** The quota read from an entry that is [null], as from a missing one,
    is 0. *)
Lemma or_zero_not_a_number u (x : number) (al : gmap string JsonValue) :
  or_zero (<[u := json_of x]> al !! u) =
    match x with Num z => z | NaN | Infinity _ => 0 end.
Proof.
  rewrite lookup_insert_eq. destruct x; cbn [json_of];
    [reflexivity | apply or_zero_Some | reflexivity].
Qed.

(** The whole of [decrementAllowance] in terms of the quota read before:
    a positive quota is lowered by one and saved, anything else is returned
    as it is and nothing is written. *)
Lemma decrementAllowance_run u d :
  let a := result (getAllowance u) d in
  decrementAllowance u d =
    if 0 <? a
    then (nearest_double (a - 1),
          mkDisk (serialize (mkStore (feedback (store_of d))
                    (<[u := JNumber (nearest_double (a - 1))]>
                       (allowances (store_of d)))))
                 (S (writes d)))
    else (a, d).
Proof.
  unfold result. rewrite getAllowance_run. cbn [fst].
  unfold decrementAllowance, io_bind.
  change (loadDb d) with (store_of d, d). cbv beta iota zeta.
  destruct (allowances (store_of d) !! u) as [[v|]|] eqn:Hv.
  - rewrite or_zero_Some. unfold truthy.
    destruct (Z.eqb_spec v 0) as [->|Hne]; cbn [negb].
    + rewrite lookup_insert_eq. reflexivity.
    + rewrite Hv. cbn [number_read].
      destruct (0 <? v) eqn:Hpos; [|reflexivity].
      rewrite saveDb_run, lookup_insert_eq. reflexivity.
  - cbn [truthy]. rewrite lookup_insert_eq. reflexivity.
  - cbn [truthy]. rewrite lookup_insert_eq. reflexivity.
Qed.

Lemma decrementAllowance_positive u d :
  0 < result (getAllowance u) d ->
  decrementAllowance u d =
    (nearest_double (result (getAllowance u) d - 1),
     mkDisk (serialize (mkStore (feedback (store_of d))
               (<[u := JNumber (nearest_double (result (getAllowance u) d - 1))]>
                  (allowances (store_of d)))))
            (S (writes d))).
Proof.
  intros H. rewrite decrementAllowance_run. cbv zeta.
  destruct (Z.ltb_spec 0 (result (getAllowance u) d)); [reflexivity | lia].
Qed.

Lemma decrementAllowance_not_positive u d :
  result (getAllowance u) d <= 0 ->
  decrementAllowance u d = (result (getAllowance u) d, d).
Proof.
  intros H. rewrite decrementAllowance_run. cbv zeta.
  destruct (Z.ltb_spec 0 (result (getAllowance u) d)); [lia | reflexivity].
Qed.

End StoreHelpers.

(** ** The allowance gate *)

Section AllowanceGate.

Implicit Types (d : Disk) (u : string).

(** The two ways an [!allow] command can end: nothing is touched and no
    grant is announced, or it is [setAllowance] with an amount of at least
    one. *)
Lemma at_least_one_checks (x : number) :
  isNaN x || less_than x 1 = false <-> at_least_one x.
Proof.
  destruct x as [|z|[|]]; cbn [isNaN less_than orb at_least_one].
  - split; [discriminate | contradiction].
  - destruct (Z.ltb_spec z 1); split; intros; (lia || discriminate || reflexivity).
  - split; discriminate.
  - split; reflexivity.
Qed.

Lemma allow_command_cases (c : AllowCommand) d :
  (allow_command c d = (AllowNoPermission, d) \/
   allow_command c d = (AllowUsage, d) \/
   allow_command c d = (AllowNotPositive, d)) \/
  exists t, sender_is_staff c = true /\ target c = Some t /\
    at_least_one (parsed_amount c) /\
    allow_command c d =
      (AllowGranted (user_tag t) (parsed_amount c),
       after (setAllowance (user_id t) (parsed_amount c)) d).
Proof.
  unfold allow_command.
  destruct (sender_is_staff c); cbn [negb]; [|by left; left].
  destruct (target c) as [t|]; [|by left; right; left].
  destruct (length (args c) <? 3)%nat; [by left; right; left|].
  cbv zeta.
  destruct (isNaN (parsed_amount c) || less_than (parsed_amount c) 1) eqn:E;
    [by left; right; right|].
  right. exists t. apply at_least_one_checks in E. repeat split; try done.
Qed.

Lemma setAllowance_keeps_no_negative u (n : number) d :
  match n with Num z => 0 <= z | NaN | Infinity _ => True end ->
  no_negative_allowance d ->
  no_negative_allowance (after (setAllowance u n) d).
Proof.
  unfold no_negative_allowance, after. rewrite setAllowance_run. cbn [snd].
  rewrite store_of_serialize. cbn [allowances].
  intros Hn Hd. apply map_Forall_insert_2; [|exact Hd]. by destruct n.
Qed.

Lemma getAllowance_no_negative u d :
  no_negative_allowance d -> 0 <= result (getAllowance u) d.
Proof.
  unfold no_negative_allowance, result. rewrite getAllowance_run. cbn [fst].
  intros Hd. destruct (allowances (store_of d) !! u) as [[v|]|] eqn:Hv.
  - rewrite or_zero_Some. exact (Hd u _ Hv).
  - reflexivity.
  - reflexivity.
Qed.

Lemma decrementAllowance_keeps_no_negative u d :
  no_negative_allowance d ->
  no_negative_allowance (after (decrementAllowance u) d).
Proof.
  intros Hd. unfold after. rewrite decrementAllowance_run. cbv zeta.
  destruct (Z.ltb_spec 0 (result (getAllowance u) d)) as [Hpos|]; cbn [snd];
    [|exact Hd].
  unfold no_negative_allowance. rewrite store_of_serialize. cbn [allowances].
  apply map_Forall_insert_2; [|exact Hd].
  apply nearest_double_nonneg. lia.
Qed.

Lemma run_op_keeps_no_negative (o : AllowanceOp) d :
  no_negative_allowance d -> no_negative_allowance (after (run_op o) d).
Proof.
  intros Hd. destruct o as [c|u|u]; unfold after, run_op, io_bind, io_ret.
  - destruct (allow_command_cases c d) as [[H|[H|H]]|(t & _ & _ & Ha & H)];
      rewrite H; cbn [snd]; try exact Hd.
    apply setAllowance_keeps_no_negative; [|exact Hd].
    destruct (parsed_amount c); cbn in Ha; (done || lia).
  - rewrite getAllowance_run. exact Hd.
  - pose proof (decrementAllowance_keeps_no_negative u d Hd) as H.
    unfold after in H. by destruct (decrementAllowance u d).
Qed.

Lemma run_ops_cons (o : AllowanceOp) os d :
  after (run_ops (o :: os)) d = after (run_ops os) (after (run_op o) d).
Proof.
  unfold after. cbn [run_ops]. unfold io_bind. by destruct (run_op o d).
Qed.

(** C10.  [decrementAllowance(u)] changes at most the entry of [u]: the
    entries of all other users and the feedback list read the same before
    and after, and the number it returns is the quota of [u] that the
    resulting store yields. *)
Theorem decrementAllowance_frame (u : string) (d : Disk) :
  let d' := after (decrementAllowance u) d in
  (forall v, v <> u ->
     allowances (store_of d') !! v = allowances (store_of d) !! v) /\
  feedback (store_of d') = feedback (store_of d) /\
  result (decrementAllowance u) d = result (getAllowance u) d'.
Proof.
  cbv zeta. unfold after, result at 1. rewrite decrementAllowance_run. cbv zeta.
  set (a := result (getAllowance u) d).
  destruct (0 <? a); cbn [fst snd].
  - rewrite store_of_serialize. cbn [feedback allowances].
    split; [|split; [reflexivity|]].
    + intros v Hv. by rewrite lookup_insert_ne.
    + unfold result. rewrite getAllowance_run, store_of_serialize.
      cbn [fst allowances]. by rewrite or_zero_insert_eq.
  - by repeat split.
Qed.

Lemma decrementAllowance_frame_witness :
  let d := mkDisk (JsonDoc None (Some {["7" := JNumber 2; "8" := JNumber 1]})) 0 in
  let d' := after (decrementAllowance "7") d in
  allowances (store_of d') !! "8" = allowances (store_of d) !! "8" /\
  feedback (store_of d') = feedback (store_of d) /\
  result (decrementAllowance "7") d = result (getAllowance "7") d'.
Proof.
  cbv zeta.
  destruct (decrementAllowance_frame "7"
              (mkDisk (JsonDoc None (Some {["7" := JNumber 2; "8" := JNumber 1]})) 0))
    as (Hother & Hfb & Hret).
  split; [apply Hother; discriminate | by split].
Defined.

(** C4.  With a quota of 0 (stored, or absent) [decrementAllowance] returns
    0 and the quota stays 0; and from a file with no negative quota, no
    sequence of grants (through [!allow]), reads and decrements leads to a
    file with a negative quota. *)
Theorem allowance_never_negative (u : string) (d : Disk)
    (ops : list AllowanceOp) (d0 : Disk) :
  (result (getAllowance u) d = 0 ->
     result (decrementAllowance u) d = 0 /\
     result (getAllowance u) (after (decrementAllowance u) d) = 0) /\
  (no_negative_allowance d0 -> no_negative_allowance (after (run_ops ops) d0)).
Proof.
  split.
  - intros H0.
    pose proof (decrementAllowance_not_positive u d ltac:(lia)) as E.
    unfold after, result at 1 2. rewrite E. cbn [fst snd].
    split; exact H0.
  - revert d0. induction ops as [|o os IH]; intros d0 Hd0; [exact Hd0|].
    rewrite run_ops_cons. apply IH. by apply run_op_keeps_no_negative.
Qed.

Lemma allowance_never_negative_witness :
  let d := mkDisk (JsonDoc None (Some {["7" := JNumber 0]})) 0 in
  let grant := OpGrant (mkAllow true ["!allow"; "<@7>"; "2"]
                                (Some (mkUser "7" "ann" "ann#0001"))) in
  (result (decrementAllowance "7") d = 0 /\
   result (getAllowance "7") (after (decrementAllowance "7") d) = 0) /\
  no_negative_allowance
    (after (run_ops [OpDecrement "7"; grant; OpDecrement "7"; OpGet "7";
                     OpDecrement "7"; OpDecrement "7"])
           (mkDisk NoFile 0)).
Proof.
  cbv zeta.
  destruct (allowance_never_negative "7"
              (mkDisk (JsonDoc None (Some {["7" := JNumber 0]})) 0)
              [OpDecrement "7";
               OpGrant (mkAllow true ["!allow"; "<@7>"; "2"]
                                (Some (mkUser "7" "ann" "ann#0001")));
               OpDecrement "7"; OpGet "7"; OpDecrement "7"; OpDecrement "7"]
              (mkDisk NoFile 0)) as [H1 H2].
  split.
  - apply H1. reflexivity.
  - apply H2. unfold no_negative_allowance. apply map_Forall_empty.
Defined.





End AllowanceGate.

(** ** The feedback flow *)

Section FeedbackFlow.

Implicit Types (d : Disk) (m : ModalSubmit).

Lemma valid_rating_parse s :
  valid_rating s = true ->
  exists r, parseInt s = Num r /\ 1 <= r <= 5.
Proof.
  unfold valid_rating. destruct (parseInt s) as [|r|]; try discriminate.
  intros H. apply andb_true_iff in H as [H1 H2].
  exists r. split; [reflexivity | lia].
Qed.

Lemma feedback_modal_bad_rating m d :
  valid_rating (rating_input m) = false ->
  feedback_modal m d = (RatingRangeError, d).
Proof.
  unfold valid_rating, feedback_modal.
  destruct (parseInt (rating_input m)) as [|r|]; try reflexivity.
  intros H. apply andb_false_iff in H.
  replace ((r <? 1) || (5 <? r)) with true; [reflexivity|].
  symmetry. apply orb_true_iff. destruct H as [H|H]; [left|right]; lia.
Qed.

Lemma feedback_modal_valid_rating m d :
  valid_rating (rating_input m) = true ->
  feedback_modal m d =
    (let uid := user_id (submitter m) in
     remaining <- getAllowance uid ;;
     if remaining <=? 0 then io_ret ModalNotAllowed
     else match post_to_log m with
          | None => io_ret SavingFailed
          | Some sent =>
            addFeedback (build_entry m (rating_of (rating_input m)) sent) ;;;
            left <- decrementAllowance uid ;;
            io_ret (Submitted left)
          end) d.
Proof.
  intros H. destruct (valid_rating_parse _ H) as (r & Hr & Hrange).
  unfold feedback_modal, rating_of. rewrite Hr.
  replace ((r <? 1) || (5 <? r)) with false; [reflexivity|].
  symmetry. apply orb_false_iff. split; lia.
Qed.

Lemma feedback_modal_no_quota m d :
  valid_rating (rating_input m) = true ->
  result (getAllowance (user_id (submitter m))) d <= 0 ->
  feedback_modal m d = (ModalNotAllowed, d).
Proof.
  intros Hv Hq. rewrite feedback_modal_valid_rating by exact Hv.
  cbv zeta. unfold io_bind. unfold result in Hq.
  destruct (getAllowance (user_id (submitter m)) d) as [a d'] eqn:E.
  rewrite getAllowance_run in E. injection E as <- <-. cbn [fst] in Hq.
  destruct (Z.leb_spec (or_zero (allowances (store_of d) !! user_id (submitter m))) 0);
    [reflexivity | lia].
Qed.

(** An accepted submission: one record appended, the quota lowered by one
    (as a double), the new quota reported. *)
Lemma feedback_modal_accepted m d :
  goes_through m = true ->
  0 < result (getAllowance (user_id (submitter m))) d ->
  feedback_modal m d =
    (Submitted (nearest_double (result (getAllowance (user_id (submitter m))) d - 1)),
     mkDisk (serialize
               (mkStore (feedback (store_of d) ++ [submitted_entry m])
                        (<[user_id (submitter m) :=
                             JNumber (nearest_double
                               (result (getAllowance (user_id (submitter m))) d - 1))]>
                           (allowances (store_of d)))))
            (S (S (writes d)))).
Proof.
  unfold goes_through. intros H Hq. apply andb_true_iff in H as [Hv Hlog].
  apply bool_decide_eq_true in Hlog as [sent Hsent].
  rewrite feedback_modal_valid_rating by exact Hv.
  set (uid := user_id (submitter m)) in *.
  set (a := result (getAllowance uid) d) in *.
  cbv zeta. unfold io_bind. rewrite getAllowance_run.
  change (or_zero (allowances (store_of d) !! uid)) with a.
  destruct (Z.leb_spec a 0) as [|_]; [lia|].
  unfold submitted_entry. rewrite Hsent. cbn [default].
  rewrite addFeedback_run.
  set (d1 := mkDisk _ (S (writes d))).
  assert (Ha : result (getAllowance uid) d1 = a).
  { unfold result, d1. rewrite getAllowance_run, store_of_serialize. reflexivity. }
  rewrite decrementAllowance_positive by (rewrite Ha; exact Hq).
  rewrite Ha. unfold d1. rewrite store_of_serialize. reflexivity.
Qed.

(** A log post that throws ends the submission before the store is
    touched. *)
Lemma feedback_modal_log_throws m d :
  valid_rating (rating_input m) = true ->
  0 < result (getAllowance (user_id (submitter m))) d ->
  post_to_log m = None ->
  feedback_modal m d = (SavingFailed, d).
Proof.
  intros Hv Hq Hlog. rewrite feedback_modal_valid_rating by exact Hv.
  cbv zeta. unfold io_bind. rewrite getAllowance_run.
  unfold result in Hq. rewrite getAllowance_run in Hq. cbn [fst] in Hq.
  destruct (Z.leb_spec (or_zero (allowances (store_of d) !! user_id (submitter m))) 0);
    [lia|].
  by rewrite Hlog.
Qed.

(** The count shown in the confirmation is the quota the file then holds. *)
Lemma confirmation_matches_store m d (left : Z) :
  result (feedback_modal m) d = Submitted left ->
  left = result (getAllowance (user_id (submitter m))) (after (feedback_modal m) d).
Proof.
  unfold result at 1, after.
  destruct (valid_rating (rating_input m)) eqn:Hv;
    [|by rewrite feedback_modal_bad_rating].
  destruct (Z.lt_ge_cases 0 (result (getAllowance (user_id (submitter m))) d))
    as [Hq|Hq]; [|rewrite feedback_modal_no_quota by (done || lia); done].
  destruct (post_to_log m) as [sent|] eqn:Hlog;
    [|by rewrite feedback_modal_log_throws].
  rewrite feedback_modal_accepted; [|unfold goes_through; rewrite Hv, Hlog|]; try done.
  cbn [fst snd]. intros [= <-]. unfold result at 2.
  rewrite getAllowance_run, store_of_serialize. cbn [fst allowances].
  by rewrite or_zero_insert_eq.
Qed.

(** The file changes only if the rating passed the check. *)
Lemma feedback_modal_changes m d :
  after (feedback_modal m) d <> d -> valid_rating (rating_input m) = true.
Proof.
  intros H. destruct (valid_rating (rating_input m)) eqn:E; [reflexivity|].
  exfalso. apply H. unfold after. by rewrite feedback_modal_bad_rating.
Qed.


Lemma field_value_ok_spec (v : string) :
  field_value_ok v = true <-> (1 <= js_length v <= 1024)%nat.
Proof.
  unfold field_value_ok. rewrite andb_true_iff, !Nat.leb_le. reflexivity.
Qed.

Lemma comment_field_ok (text : string) :
  field_value_ok (comment_field text) = true <->
  text = EmptyString \/ (1 <= js_length text <= 1024)%nat.
Proof.
  unfold comment_field. destruct text as [|c s]; cbn [nonempty].
  - split; [by left | reflexivity].
  - rewrite field_value_ok_spec. split; [by right | by intros [|]].
Qed.

Lemma embed_builds_spec m : embed_builds m = true <-> fields_fit m.
Proof.
  unfold embed_builds, fields_fit.
  by rewrite andb_true_iff, field_value_ok_spec, comment_field_ok.
Qed.








(** C5.  A submission whose rating field parses to no number, or to a
    number below 1 or above 5 (so 0 and 6 in particular), gets the rating
    error and leaves the file exactly as it was: no record is appended, no
    quota is lowered, nothing is written.  Conversely the file changes only
    when the rating parses to an integer from 1 to 5. *)
Theorem bad_rating_is_rejected (m : ModalSubmit) (d : Disk) :
  (match parseInt (rating_input m) with
   | Num r => r < 1 \/ 5 < r
   | NaN | Infinity _ => True
   end ->
   result (feedback_modal m) d = RatingRangeError /\
   after (feedback_modal m) d = d) /\
  (after (feedback_modal m) d <> d ->
   exists r, parseInt (rating_input m) = Num r /\ 1 <= r <= 5).
Proof.
  split.
  - intros Hbad.
    assert (Hv : valid_rating (rating_input m) = false).
    { unfold valid_rating. destruct (parseInt (rating_input m)) as [|r|];
        try reflexivity.
      apply andb_false_iff. destruct Hbad; [left|right]; lia. }
    unfold result, after. by rewrite feedback_modal_bad_rating.
  - intros Hch. apply valid_rating_parse. by apply (feedback_modal_changes m d).
Qed.

Lemma bad_rating_is_rejected_witness :
  let u := mkUser "7" "ann" "ann#0001" in
  let ok := mkAnswers true None (Fetched true) (Sent "900" "55")
                      "2024-05-01T10:00:00.000Z" in
  let d := after (setAllowance "7" (Num 3)) (mkDisk NoFile 0) in
  (result (feedback_modal (mkSubmit "0" EmptyString u ok)) d = RatingRangeError /\
   after (feedback_modal (mkSubmit "0" EmptyString u ok)) d = d) /\
  (result (feedback_modal (mkSubmit "6" EmptyString u ok)) d = RatingRangeError /\
   after (feedback_modal (mkSubmit "6" EmptyString u ok)) d = d) /\
  (result (feedback_modal (mkSubmit "five" EmptyString u ok)) d = RatingRangeError /\
   after (feedback_modal (mkSubmit "five" EmptyString u ok)) d = d) /\
  (exists r, parseInt "4" = Num r /\ 1 <= r <= 5).
Proof.
  cbv zeta.
  pose (u := mkUser "7" "ann" "ann#0001").
  pose (ok := mkAnswers true None (Fetched true) (Sent "900" "55")
                        "2024-05-01T10:00:00.000Z").
  pose (d := after (setAllowance "7" (Num 3)) (mkDisk NoFile 0)).
  split; [|split; [|split]].
  - apply (bad_rating_is_rejected (mkSubmit "0" EmptyString u ok) d).
    left. reflexivity.
  - apply (bad_rating_is_rejected (mkSubmit "6" EmptyString u ok) d).
    right. reflexivity.
  - apply (bad_rating_is_rejected (mkSubmit "five" EmptyString u ok) d).
    exact I.
  - apply (bad_rating_is_rejected (mkSubmit "4" EmptyString u ok) d).
    vm_compute. discriminate.
Defined.

Lemma add_all_store (es : list FeedbackRecord) :
  forall d,
  store_of (after (add_all es) d) =
    mkStore (feedback (store_of d) ++ es) (allowances (store_of d)).
Proof.
  induction es as [|e es IH]; intros d.
  - change (after (add_all []) d) with d. rewrite app_nil_r.
    by destruct (store_of d).
  - unfold after. cbn [add_all]. unfold io_bind. rewrite addFeedback_run.
    fold (after (add_all es) (mkDisk (serialize (mkStore (feedback (store_of d) ++ [e])
                 (allowances (store_of d)))) (S (writes d)))).
    rewrite IH, store_of_serialize. cbn [feedback allowances].
    by rewrite <- app_assoc.
Qed.

(** C6.  After records [es] have been appended in order by [addFeedback],
    [GET /api/feedback-logs] answers with the stored records in reverse
    order of appending, newest first (the records [es] reversed, then the
    older ones reversed), and leaves the file as it is. *)
Theorem feedback_logs_newest_first (es : list FeedbackRecord) (d : Disk) :
  let d' := after (add_all es) d in
  result get_feedback_logs d' = Json200 (rev es ++ rev (feedback (store_of d))) /\
  result get_feedback_logs d' = Json200 (rev (feedback (store_of d'))) /\
  after get_feedback_logs d' = d'.
Proof.
  cbv zeta. split; [|split; reflexivity].
  unfold result, get_feedback_logs, io_bind, io_ret.
  change (loadDb (after (add_all es) d))
    with (store_of (after (add_all es) d), after (add_all es) d).
  cbn [fst]. rewrite add_all_store. cbn [feedback]. by rewrite rev_app_distr.
Qed.

Lemma filter_same_length {A} (P : A -> Prop) `{!forall x, Decision (P x)}
    (l : list A) :
  length (filter P l) = length l -> filter P l = l.
Proof.
  induction l as [|a l IH]; [done|].
  rewrite filter_cons. destruct (decide (P a)); cbn [length]; intros Hlen.
  - f_equal. apply IH. lia.
  - pose proof (length_filter P l). lia.
Qed.

Lemma filter_all {A} (P : A -> Prop) `{!forall x, Decision (P x)} (l : list A) :
  Forall P l -> filter P l = l.
Proof.
  induction 1 as [|a l Ha _ IH]; [done|].
  by rewrite filter_cons_True, IH.
Qed.

Lemma filter_none {A} (P : A -> Prop) `{!forall x, Decision (P x)} (l : list A) :
  filter P l = [] -> Forall (fun x => ~ P x) l.
Proof.
  induction l as [|a l IH]; [constructor|].
  rewrite filter_cons. destruct (decide (P a)); [discriminate|].
  intros Hnil. constructor; [assumption | by apply IH].
Qed.

(** A list with exactly one element satisfying [P] splits around it. *)
Lemma filter_exactly_one {A} (P : A -> Prop) `{!forall x, Decision (P x)}
    (l : list A) :
  length (filter P l) = 1%nat ->
  exists l1 x l2, l = l1 ++ x :: l2 /\ P x /\
    Forall (fun y => ~ P y) l1 /\ Forall (fun y => ~ P y) l2.
Proof.
  induction l as [|a l IH]; [discriminate|].
  rewrite filter_cons. destruct (decide (P a)) as [Ha|Ha]; cbn [length];
    intros Hlen.
  - exists [], a, l. repeat split; [assumption | constructor |].
    apply (filter_none P l). apply nil_length_inv. lia.
  - destruct (IH Hlen) as (l1 & x & l2 & -> & Hx & H1 & H2).
    exists (a :: l1), x, l2. repeat split; try assumption. by constructor.
Qed.

(** What [removeFeedbackByMessageId] leaves behind, saved or not. *)
Lemma removeFeedbackByMessageId_store (mid : string) d :
  store_of (after (removeFeedbackByMessageId mid) d) =
    mkStore (filter (fun f => messageId f <> Some mid) (feedback (store_of d)))
            (allowances (store_of d)).
Proof.
  unfold after, removeFeedbackByMessageId, io_bind.
  change (loadDb d) with (store_of d, d). cbv beta iota zeta.
  case_bool_decide as Hlen.
  - rewrite saveDb_run. cbn [snd]. by rewrite store_of_serialize.
  - unfold io_ret. cbn [snd].
    rewrite (filter_same_length _ _ Hlen). by destruct (store_of d).
Qed.

(** C3.  When exactly one stored record has [messageId] equal to [mid],
    [removeFeedbackByMessageId(mid)] takes out that record and nothing else:
    the records around it stay, in their order; what is left is precisely the
    records whose [messageId] differs from [mid]; the allowances are as
    before. *)
Theorem removeFeedback_removes_exactly_one (mid : string) (d : Disk) :
  length (filter (fun f => messageId f = Some mid) (feedback (store_of d))) = 1%nat ->
  let d' := after (removeFeedbackByMessageId mid) d in
  (exists l1 r l2,
     feedback (store_of d) = l1 ++ r :: l2 /\
     messageId r = Some mid /\
     Forall (fun f => messageId f <> Some mid) (l1 ++ l2) /\
     feedback (store_of d') = l1 ++ l2) /\
  feedback (store_of d') =
    filter (fun f => messageId f <> Some mid) (feedback (store_of d)) /\
  allowances (store_of d') = allowances (store_of d).
Proof.
  intros Hone d'. unfold d'. rewrite removeFeedbackByMessageId_store.
  cbn [feedback allowances]. split; [|by split].
  destruct (filter_exactly_one _ _ Hone) as (l1 & r & l2 & Hl & Hr & H1 & H2).
  exists l1, r, l2. rewrite Hl. repeat split; try assumption.
  - by apply Forall_app.
  - rewrite filter_app, filter_cons_False by (intros H; by apply H).
    by rewrite !filter_all.
Qed.

Lemma removeFeedback_removes_exactly_one_witness :
  let e := fun (who : string) (mid : option string) =>
             mkFeedback who who 5 EmptyString (Some Unknown) "2024-05-01T10:00:00.000Z" mid
                        (Some "55") in
  let d := mkDisk (JsonDoc (Some [e "1" (Some "900"); e "2" (Some "901");
                                  e "3" None; e "4" (Some "902")])
                           (Some {["1" := JNumber 2]})) 0 in
  let d' := after (removeFeedbackByMessageId "901") d in
  feedback (store_of d') = [e "1" (Some "900"); e "3" None; e "4" (Some "902")] /\
  allowances (store_of d') = {["1" := JNumber 2]}.
Proof.
  cbv zeta.
  pose (e := fun (who : string) (mid : option string) =>
             mkFeedback who who 5 EmptyString (Some Unknown) "2024-05-01T10:00:00.000Z" mid
                        (Some "55")).
  destruct (removeFeedback_removes_exactly_one "901"
    (mkDisk (JsonDoc (Some [e "1" (Some "900"); e "2" (Some "901");
                            e "3" None; e "4" (Some "902")])
                     (Some {["1" := JNumber 2]})) 0) eq_refl) as (_ & Hf & Ha).
  split; [exact Hf | exact Ha].
Defined.

(** The [messageDelete] handler reaches [removeFeedbackByMessageId] for a
    message of the configured log channel. *)
Lemma messageDelete_in_log_channel (cfg id : string) (other : option string) :
  nonempty id = true -> nonempty cfg = true ->
  messageDelete cfg (mkDeleted id (Some cfg) other) = removeFeedbackByMessageId id.
Proof.
  intros Hid Hcfg. unfold messageDelete. cbn [deleted_id deleted_channelId].
  rewrite Hid, Hcfg. cbn [negb]. by rewrite Hcfg, String.eqb_refl.
Qed.

End FeedbackFlow.

(** ** The ticket flow *)

Section TicketFlow.

Implicit Types (s t r : string) (c : ascii).

(** *** Searching strings *)

Lemma append_nil r : EmptyString +:+ r = r.
Proof. reflexivity. Qed.

Lemma append_cons c s r : String c s +:+ r = String c (s +:+ r).
Proof. reflexivity. Qed.

Lemma prefix_append s r : String.prefix s (s +:+ r) = true.
Proof.
  induction s as [|c s IH]; [by destruct r|].
  rewrite append_cons. cbn [String.prefix].
  destruct (ascii_dec c c) as [_|Hne]; [exact IH | by destruct Hne].
Qed.

Lemma includes_prefix s t : String.prefix s t = true -> includes s t = true.
Proof. intros H. destruct t; cbn [includes]; by rewrite H. Qed.

Lemma includes_append t s r : includes s (t +:+ s +:+ r) = true.
Proof.
  induction t as [|c t IH].
  - rewrite append_nil. apply includes_prefix, prefix_append.
  - rewrite append_cons. cbn [includes]. rewrite IH. apply orb_true_r.
Qed.

Lemma prefix_split s t : String.prefix s t = true -> exists r, t = s +:+ r.
Proof.
  revert t. induction s as [|a s IH]; intros t H; [by exists t|].
  destruct t as [|b t]; [discriminate|]. cbn [String.prefix] in H.
  destruct (ascii_dec a b) as [->|]; [|discriminate].
  destruct (IH t H) as [r ->]. by exists r.
Qed.

(** [includes] is containment as a substring. *)
Lemma includes_spec s t :
  includes s t = true <-> exists before rest, t = before +:+ s +:+ rest.
Proof.
  split.
  - induction t as [|c t IH]; cbn [includes]; intros H;
      apply orb_true_iff in H as [H|H]; try discriminate.
    + destruct (prefix_split _ _ H) as [r Hr]. by exists EmptyString, r.
    + destruct (prefix_split _ _ H) as [r Hr]. by exists EmptyString, r.
    + destruct (IH H) as (before & rest & ->). by exists (String c before), rest.
  - intros (before & rest & ->). apply includes_append.
Qed.

Lemma is_digit_space : is_digit " " = false.
Proof. reflexivity. Qed.

Lemma take_digits_before_space n t r :
  take_digits n (t +:+ String " " r) = take_digits n t.
Proof.
  revert t. induction n as [|n IH]; intros [|c t]; try reflexivity.
  rewrite append_cons. cbn [take_digits]. destruct (is_digit c); [|reflexivity].
  by rewrite IH.
Qed.

(** A pattern without a space cannot use characters beyond a space. *)
Lemma drop_prefix_before_space p t r :
  includes " " p = false ->
  drop_prefix p (t +:+ String " " r) =
    (fun rest => rest +:+ String " " r) <$> drop_prefix p t.
Proof.
  revert t. induction p as [|a p IH]; intros t Hp.
  - by destruct t.
  - cbn [includes] in Hp. apply orb_false_iff in Hp as [Ha Hp].
    destruct t as [|b t].
    + rewrite append_nil. cbn [drop_prefix].
      destruct (Ascii.eqb_spec a " ") as [->|]; [|reflexivity].
      exfalso. cbn [String.prefix] in Ha.
      destruct (ascii_dec " " " ") as [_|Hne]; [by destruct p | by apply Hne].
    + rewrite append_cons. cbn [drop_prefix].
      destruct (Ascii.eqb a b); [|reflexivity]. by apply IH.
Qed.

Lemma match_here_before_space t r :
  match_here (t +:+ String " " r) = match_here t.
Proof.
  unfold match_here. rewrite drop_prefix_before_space by reflexivity.
  destruct (drop_prefix "UserID:" t) as [rest|]; [|reflexivity].
  cbn [fmap option_fmap option_map]. by rewrite take_digits_before_space.
Qed.

Lemma match_user_id_cons c s :
  match_user_id (String c s) =
    match match_here (String c s) with
    | Some ds => Some ds
    | None => match_user_id s
    end.
Proof. reflexivity. Qed.

(** A match inside [t] wins; without one, the search goes on after [t]. *)
Lemma match_user_id_before_space t r :
  match_user_id (t +:+ String " " r) =
    match match_user_id t with
    | Some ds => Some ds
    | None => match_user_id (String " " r)
    end.
Proof.
  induction t as [|c t IH]; [reflexivity|].
  change (String c t +:+ String " " r) with (String c (t +:+ String " " r)).
  rewrite !match_user_id_cons.
  change (String c (t +:+ String " " r)) with (String c t +:+ String " " r).
  rewrite match_here_before_space.
  destruct (match_here (String c t)); [reflexivity | exact IH].
Qed.

Lemma take_digits_all s r n :
  all_digits s = true -> (String.length s <= n)%nat ->
  starts_with_digit r = false ->
  take_digits n (s +:+ r) = s.
Proof.
  revert n. induction s as [|c s IH]; intros n Hs Hn Hr.
  - rewrite append_nil. destruct n, r; try reflexivity.
    cbn in Hr |- *. by rewrite Hr.
  - cbn [all_digits] in Hs. apply andb_true_iff in Hs as [Hc Hs].
    destruct n as [|n]; [cbn in Hn; lia|].
    rewrite append_cons. cbn [take_digits]. rewrite Hc, IH; try done.
    cbn in Hn. lia.
Qed.

Lemma match_here_owner uid r :
  is_snowflake uid = true -> starts_with_digit r = false ->
  match_here ("UserID:" +:+ uid +:+ r) = Some uid.
Proof.
  unfold is_snowflake. intros H Hr.
  apply andb_true_iff in H as [H Hmax]. apply andb_true_iff in H as [Hd Hmin].
  unfold match_here.
  change (drop_prefix "UserID:" ("UserID:" +:+ uid +:+ r)) with (Some (uid +:+ r)).
  cbv beta iota. rewrite take_digits_all; [by rewrite Hmin | exact Hd | | exact Hr].
  by apply Nat.leb_le.
Qed.

(** The search on a freshly written topic: the tag is searched first,
    then the identifier is found. *)
Lemma match_user_id_ticket_topic (u : User) (selection : string) :
  is_snowflake (user_id u) = true ->
  match_user_id (ticket_topic u selection) =
    match match_user_id (user_tag u) with
    | Some earlier => Some earlier
    | None => Some (user_id u)
    end.
Proof.
  intros Hid. unfold ticket_topic.
  set (tail := ") | Type: " +:+ prettyTicketLabel selection).
  change ("Ticket for " +:+ user_tag u +:+ " (UserID:" +:+ user_id u +:+ tail)
    with ("Ticket for " +:+
          (user_tag u +:+ String " " ("(" +:+ "UserID:" +:+ user_id u +:+ tail))).
  assert (Hskip : forall s, match_user_id ("Ticket for " +:+ s) = match_user_id s)
    by reflexivity.
  rewrite Hskip, match_user_id_before_space.
  destruct (match_user_id (user_tag u)); [reflexivity|].
  assert (Hskip2 : forall s, match_user_id (String " " ("(" +:+ s)) = match_user_id s)
    by reflexivity.
  rewrite Hskip2.
  destruct ("UserID:" +:+ user_id u +:+ tail) eqn:E; [discriminate|].
  rewrite match_user_id_cons, <- E, match_here_owner; done.
Qed.

(** X20.  For a member whose identifier is 17 to 19 digits and whose tag
    holds no match of the owner pattern, the pattern of the Notify and Close
    handlers applied to the topic written at creation finds exactly the
    identifier of the member, whatever the selected type. *)
Theorem topic_owner_roundtrip (u : User) (selection : string) :
  is_snowflake (user_id u) = true ->
  match_user_id (user_tag u) = None ->
  match_user_id (ticket_topic u selection) = Some (user_id u).
Proof.
  intros Hid Htag. by rewrite match_user_id_ticket_topic, Htag.
Qed.

Lemma topic_owner_roundtrip_witness :
  match_user_id
    (ticket_topic (mkUser "123456789012345678" "ann" "ann#0001") "purchase")
  = Some "123456789012345678".
Proof.
  exact (topic_owner_roundtrip
           (mkUser "123456789012345678" "ann" "ann#0001") "purchase"
           eq_refl eq_refl).
Defined.


(** *** Creating tickets *)

Lemma append_assoc s t r : (s +:+ t) +:+ r = s +:+ t +:+ r.
Proof.
  induction s as [|c s IH]; [reflexivity|].
  rewrite !append_cons. by rewrite IH.
Qed.

(** What the scan of lines 478-483 looks for. *)
Lemma is_ticket_of_spec (uid : string) (ch : Channel) :
  is_ticket_of uid ch = true <-> ticket_for uid ch.
Proof.
  unfold is_ticket_of, ticket_for, names_member. split.
  - intros H. apply andb_true_iff in H as [Hp Ht].
    destruct (parentId ch) as [p|]; [|discriminate].
    apply String.eqb_eq in Hp as ->. split; [reflexivity|].
    destruct (topic ch) as [t|]; [|discriminate].
    apply andb_true_iff in Ht as [_ Ht].
    apply includes_spec in Ht as (before & rest & ->).
    exists (before +:+ "UserID:" +:+ uid +:+ rest). split; [reflexivity|].
    exists before, rest. reflexivity.
  - intros (-> & t & -> & before & rest & ->).
    rewrite String.eqb_refl. cbn [andb]. apply andb_true_iff. split.
    + by destruct before.
    + apply (includes_append before ("UserID:" +:+ uid) rest).
Qed.

(** [find] returns the first element that passes the test. *)
Lemma find_first {A} (f : A -> bool) (l : list A) (x : A) :
  List.find f l = Some x ->
  f x = true /\
  exists earlier later,
    l = earlier ++ x :: later /\ Forall (fun y => f y = false) earlier.
Proof.
  induction l as [|a l IH]; [discriminate|]. cbn [List.find].
  destruct (f a) eqn:Ha.
  - intros [= ->]. split; [exact Ha|]. exists [], l. by split.
  - intros H. destruct (IH H) as (Hx & earlier & later & -> & Hall).
    split; [exact Hx|]. exists (a :: earlier), later. split; [reflexivity|].
    by constructor.
Qed.

(** The channel the handler creates is one its own scan finds. *)
Lemma new_ticket_is_found (u : User) (selection id : string) :
  is_ticket_of (user_id u)
    (mkChannel id GuildText (Some TICKET_CATEGORY_ID)
               (Some (ticket_topic u selection))) = true.
Proof.
  unfold is_ticket_of. cbn [parentId topic]. rewrite String.eqb_refl.
  apply andb_true_iff. split; [reflexivity|].
  apply andb_true_iff. split; [reflexivity|].
  unfold ticket_topic.
  replace ("Ticket for " +:+ user_tag u +:+ " (UserID:" +:+ user_id u
           +:+ ") | Type: " +:+ prettyTicketLabel selection)
    with (("Ticket for " +:+ user_tag u +:+ " (")
          +:+ ("UserID:" +:+ user_id u)
          +:+ ") | Type: " +:+ prettyTicketLabel selection).
  - apply includes_append.
  - by rewrite !append_assoc.
Qed.

(** The handler creates a channel only when its scan found none; it then
    adds that channel, and nothing else, to the guild. *)
Lemma ticket_select_created cache (u : User) selection ext ch :
  created (ticket_select (Some cache) u selection ext) = Some ch ->
  List.find (is_ticket_of (user_id u)) cache = None /\
  is_ticket_of (user_id u) ch = true /\
  cache_after (ticket_select (Some cache) u selection ext) = cache ++ [ch].
Proof.
  unfold ticket_select.
  destruct (cache_get TICKET_CATEGORY_ID cache) as [cat|]; [|discriminate].
  destruct (channel_type cat); try discriminate.
  destruct (List.find (is_ticket_of (user_id u)) cache); [discriminate|].
  destruct (new_channel_id ext) as [id|]; [|discriminate].
  cbn [created cache_after]. intros [= <-].
  split; [reflexivity|]. split; [apply new_ticket_is_found | reflexivity].
Qed.

Lemma ticket_select_not_created cache (u : User) selection ext :
  created (ticket_select (Some cache) u selection ext) = None ->
  cache_after (ticket_select (Some cache) u selection ext) = cache.
Proof.
  unfold ticket_select.
  destruct (cache_get TICKET_CATEGORY_ID cache) as [cat|]; [|reflexivity].
  destruct (channel_type cat); try reflexivity.
  destruct (List.find (is_ticket_of (user_id u)) cache); [reflexivity|].
  destruct (new_channel_id ext); [discriminate | reflexivity].
Qed.

Lemma tickets_of_app uid (chans : list Channel) (l1 l2 : list (string * Channel)) :
  tickets_of uid (mkGuild chans (l1 ++ l2)) =
    tickets_of uid (mkGuild chans l1) ++ tickets_of uid (mkGuild chans l2).
Proof. unfold tickets_of. cbn [open_tickets]. apply List.filter_app. Qed.

(** A member for whom the scan finds nothing has no recorded open ticket. *)
Lemma no_ticket_found (g : Guild) uid :
  tickets_recorded g ->
  List.find (is_ticket_of uid) (channels g) = None ->
  tickets_of uid g = [].
Proof.
  unfold tickets_recorded, tickets_of. intros Hrec Hnone.
  induction Hrec as [|[v ch] l [Hin Htk] _ IH]; [reflexivity|].
  cbn [List.filter fst snd] in *.
  destruct (String.eqb_spec v uid) as [->|]; [|exact IH].
  apply is_ticket_of_spec in Htk.
  pose proof (List.find_none _ _ Hnone ch Hin) as Hf. congruence.
Qed.

Lemma filter_filter_length {A} (f g : A -> bool) (l : list A) :
  (length (List.filter f (List.filter g l)) <= length (List.filter f l))%nat.
Proof.
  induction l as [|a l IH]; [reflexivity|].
  cbn [List.filter]. destruct (g a), (f a) eqn:E; cbn [List.filter length];
    rewrite ?E; cbn [length]; lia.
Qed.

Lemma ticket_step_keeps (e : TicketEvent) (g : Guild) :
  tickets_recorded g -> one_ticket_each g ->
  tickets_recorded (ticket_step e g) /\ one_ticket_each (ticket_step e g).
Proof.
  intros Hrec Hone. destruct e as [u selection ext|id]; cbn [ticket_step];
    cbv zeta.
  - destruct (created (ticket_select (Some (channels g)) u selection ext))
      as [ch|] eqn:Hc.
    + destruct (ticket_select_created _ _ _ _ _ Hc) as (Hnone & Htk & ->).
      split.
      * unfold tickets_recorded. cbn [channels open_tickets].
        apply Forall_app. split.
        -- eapply Forall_impl; [exact Hrec|]. intros t [Hin Ht].
           split; [apply in_or_app; by left | exact Ht].
        -- constructor; [|constructor]. cbn [fst snd].
           split; [apply in_or_app; right; by left | by apply is_ticket_of_spec].
      * intros uid. rewrite tickets_of_app, length_app.
        unfold tickets_of at 2. cbn [open_tickets List.filter fst].
        change (tickets_of uid (mkGuild (channels g ++ [ch]) (open_tickets g)))
          with (tickets_of uid g).
        destruct (String.eqb_spec (user_id u) uid) as [<-|]; cbn [length].
        -- rewrite (no_ticket_found g (user_id u) Hrec Hnone). cbn [length]. lia.
        -- specialize (Hone uid). lia.
    + rewrite (ticket_select_not_created _ _ _ _ Hc). by destruct g.
  - split.
    + unfold tickets_recorded in *. cbn [channels open_tickets].
      induction Hrec as [|t l [Hin Ht] _ IH]; [constructor|].
      cbn [List.filter]. destruct (not_id id (snd t)) eqn:E; [|exact IH].
      constructor; [|exact IH]. split; [|exact Ht].
      apply List.filter_In. by split.
    + intros uid. unfold tickets_of. cbn [open_tickets].
      etransitivity; [apply filter_filter_length | apply (Hone uid)].
Qed.

Lemma ticket_run_keeps (es : list TicketEvent) :
  forall g, tickets_recorded g -> one_ticket_each g ->
  tickets_recorded (ticket_run es g) /\ one_ticket_each (ticket_run es g).
Proof.
  induction es as [|e es IH]; intros g Hrec Hone; [by split|].
  cbn [ticket_run]. destruct (ticket_step_keeps e g Hrec Hone) as [Hrec' Hone'].
  by apply IH.
Qed.

(** C7.  A selection by a member for whom some channel under the configured
    ticket category has a topic containing [UserID:<id>] is answered with a
    reference to such a channel: a channel of the guild whose parent is the
    ticket category and whose topic contains [UserID:<id>], the first one in
    the cache; no channel is created and the guild is as before.  Hence,
    over any sequence of selections and channel deletions handled one after
    the other, no member ever has two open tickets. *)
Theorem existing_ticket_blocks_creation
    (cache : list Channel) (ch : Channel) (t : string)
    (u : User) (selection : string) (ext : Creation)
    (events : list TicketEvent) (g : Guild) :
  (under_ticket_category cache ch ->
   topic ch = Some t ->
   names_member (user_id u) t ->
   let out := ticket_select (Some cache) u selection ext in
   (exists existing earlier later,
      reply out = TicketAlreadyOpen existing /\
      cache = earlier ++ existing :: later /\
      ticket_for (user_id u) existing /\
      Forall (fun other => ~ ticket_for (user_id u) other) earlier) /\
   created out = None /\
   cache_after out = cache) /\
  (tickets_recorded g -> one_ticket_each g ->
   one_ticket_each (ticket_run events g)).
Proof.
  split.
  - intros (Hin & Hparent & category & Hcat & Htype) Htopic Hinc. cbv zeta.
    assert (Hch : is_ticket_of (user_id u) ch = true).
    { apply is_ticket_of_spec. split; [exact Hparent|]. by exists t. }
    unfold ticket_select. rewrite Hcat, Htype.
    destruct (List.find (is_ticket_of (user_id u)) cache) as [existing|] eqn:Hfind.
    + cbn [reply created cache_after]. split; [|by split].
      destruct (find_first _ _ _ Hfind) as (Htk & earlier & later & Hc & Hall).
      exists existing, earlier, later. split; [reflexivity|].
      split; [exact Hc|]. split; [by apply is_ticket_of_spec|].
      eapply Forall_impl; [exact Hall|]. intros other Hno Hyes.
      apply is_ticket_of_spec in Hyes. congruence.
    + pose proof (List.find_none _ _ Hfind ch Hin). congruence.
  - intros Hrec Hone. by apply ticket_run_keeps.
Qed.

Lemma existing_ticket_blocks_creation_witness :
  let category := mkChannel TICKET_CATEGORY_ID GuildCategory None None in
  let u := mkUser "123456789012345678" "ann" "ann#0001" in
  let mine := mkChannel "500" GuildText (Some TICKET_CATEGORY_ID)
                        (Some (ticket_topic u "bug")) in
  let ext := mkCreation (Some "501") true in
  let out := ticket_select (Some [category; mine]) u "other" ext in
  ((exists existing earlier later,
      reply out = TicketAlreadyOpen existing /\
      [category; mine] = earlier ++ existing :: later /\
      ticket_for (user_id u) existing /\
      Forall (fun other => ~ ticket_for (user_id u) other) earlier) /\
   created out = None /\
   cache_after out = [category; mine]) /\
  one_ticket_each
    (ticket_run [Select u "bug" (mkCreation (Some "500") true);
                 Select u "other" ext;
                 ChannelDeleted "500";
                 Select u "other" ext]
                (mkGuild [category] [])).
Proof.
  cbv zeta.
  pose (category := mkChannel TICKET_CATEGORY_ID GuildCategory None None).
  pose (u := mkUser "123456789012345678" "ann" "ann#0001").
  pose (mine := mkChannel "500" GuildText (Some TICKET_CATEGORY_ID)
                          (Some (ticket_topic u "bug"))).
  pose (ext := mkCreation (Some "501") true).
  destruct (existing_ticket_blocks_creation
              [category; mine] mine (ticket_topic u "bug")
              u "other" ext
              [Select u "bug" (mkCreation (Some "500") true);
               Select u "other" ext;
               ChannelDeleted "500";
               Select u "other" ext]
              (mkGuild [category] [])) as [HA HB].
  split.
  - apply HA; [|reflexivity|].
    + split; [right; left; reflexivity|]. split; [reflexivity|].
      exists category. by split.
    + exists "Ticket for ann#0001 (", ") | Type: Bug / Technical Issue".
      reflexivity.
  - apply HB.
    + constructor.
    + intros uid. cbn. lia.
Defined.

(** The Notify button on a freshly created ticket reaches the member the
    ticket was created for, when the tag holds no earlier match. *)
Lemma ticket_notify_reaches_owner (u owner : User) (selection : string)
    (fetch : string -> option User) :
  is_snowflake (user_id u) = true ->
  match_user_id (user_tag u) = None ->
  fetch (user_id u) = Some owner ->
  ticket_notify true (Some (ticket_topic u selection)) fetch true = Notified owner.
Proof.
  intros Hid Htag Hfetch. unfold ticket_notify. cbn [negb or_empty].
  by rewrite match_user_id_ticket_topic, Htag, Hfetch.
Qed.

End TicketFlow.

(** * Further properties of the store helpers *)

Section StoreMore.

Implicit Types (d : Disk) (u v : string).

Lemma quota_eq u d : quota u d = or_zero (allowances (store_of d) !! u).
Proof. reflexivity. Qed.

Lemma unreadable_store d :
  content d = NoFile \/ content d = NotJson -> store_of d = emptyDb.
Proof.
  unfold store_of, result, loadDb. cbn [fst]. by intros [-> | ->].
Qed.

(** X1.  A missing or unparsable file reads as the empty store and is not
    touched by reading: every quota is 0 and the log endpoint answers with
    an empty list.  The first write then replaces whatever the file held:
    after [addFeedback(e)] the store is that one record with no quotas,
    after [setAllowance(u, n)] it is that one quota with no records. *)
Theorem unreadable_file_is_empty_store (d : Disk) (u : string) (n : Z)
    (e : FeedbackRecord) :
  content d = NoFile \/ content d = NotJson ->
  store_of d = emptyDb /\
  after loadDb d = d /\
  result (getAllowance u) d = 0 /\
  result get_feedback_logs d = Json200 [] /\
  store_of (after (addFeedback e) d) = mkStore [e] ∅ /\
  store_of (after (setAllowance u (Num n)) d) = mkStore [] {[u := JNumber n]}.
Proof.
  intros Hd. pose proof (unreadable_store d Hd) as Hs.
  split; [exact Hs|]. split; [reflexivity|].
  split; [unfold result; by rewrite getAllowance_run, Hs|].
  split.
  - unfold result, get_feedback_logs, io_bind, io_ret.
    change (loadDb d) with (store_of d, d). cbn [fst]. by rewrite Hs.
  - unfold after. rewrite addFeedback_run, setAllowance_run. cbn [snd].
    rewrite !store_of_serialize, Hs. by split.
Qed.

Lemma unreadable_file_is_empty_store_witness :
  let e := mkFeedback "7" "ann" 4 "great" None "2024-05-01T10:00:00.000Z"
                      None None in
  result (getAllowance "7") (mkDisk NotJson 0) = 0 /\
  store_of (after (addFeedback e) (mkDisk NotJson 0)) = mkStore [e] ∅.
Proof.
  cbv zeta.
  destruct (unreadable_file_is_empty_store (mkDisk NotJson 0) "7" 1
              (mkFeedback "7" "ann" 4 "great" None "2024-05-01T10:00:00.000Z"
                          None None)
              (or_intror eq_refl)) as (_ & _ & Hq & _ & Ha & _).
  by split.
Defined.

Lemma setAllowance_store u (n : number) d :
  store_of (after (setAllowance u n) d) =
    mkStore (feedback (store_of d)) (<[u := json_of n]> (allowances (store_of d))).
Proof. unfold after. rewrite setAllowance_run. apply store_of_serialize. Qed.

(** X2.  [setAllowance(u, n)] leaves the quota of every other user as it
    was; of two grants to the same user only the last one counts; grants to
    two different users give the same store in either order. *)
Theorem setAllowance_other_users (u v : string) (n k : Z) (d : Disk) :
  v <> u ->
  quota v (after (setAllowance u (Num n)) d) = quota v d /\
  store_of (after (setAllowance u (Num k)) (after (setAllowance u (Num n)) d)) =
    store_of (after (setAllowance u (Num k)) d) /\
  store_of (after (setAllowance v (Num k)) (after (setAllowance u (Num n)) d)) =
    store_of (after (setAllowance u (Num n)) (after (setAllowance v (Num k)) d)).
Proof.
  intros Hne. rewrite !quota_eq, !setAllowance_store. cbn [feedback allowances].
  split; [by rewrite lookup_insert_ne|].
  split; f_equal.
  - apply insert_insert_eq.
  - by apply insert_insert_ne.
Qed.

Lemma setAllowance_other_users_witness :
  let d := after (setAllowance "8" (Num 4)) (mkDisk NoFile 0) in
  quota "8" (after (setAllowance "7" (Num 2)) d) = 4.
Proof.
  cbv zeta.
  destruct (setAllowance_other_users "7" "8" 2 1
              (after (setAllowance "8" (Num 4)) (mkDisk NoFile 0))
              ltac:(discriminate)) as (Hq & _).
  exact Hq.
Defined.

Lemma decrementAllowance_quota u d :
  quota u (after (decrementAllowance u) d) =
    if 0 <? quota u d then nearest_double (quota u d - 1) else quota u d.
Proof.
  unfold after. rewrite decrementAllowance_run. cbv zeta.
  fold (quota u d). destruct (0 <? quota u d); cbn [snd]; [|reflexivity].
  rewrite quota_eq, store_of_serialize. cbn [allowances].
  apply or_zero_insert_eq.
Qed.

Lemma decrementAllowance_writes u d :
  writes (after (decrementAllowance u) d) =
    if 0 <? quota u d then S (writes d) else writes d.
Proof.
  unfold after. rewrite decrementAllowance_run. cbv zeta.
  fold (quota u d). by destruct (0 <? quota u d).
Qed.

Lemma decrement_times_S n u d :
  after (decrement_times (S n) u) d =
    after (decrement_times n u) (after (decrementAllowance u) d).
Proof.
  unfold decrement_times. cbn [repeat]. rewrite run_ops_cons. f_equal.
  unfold after, run_op, io_bind, io_ret. by destruct (decrementAllowance u d).
Qed.

(** X3.  [n] calls of [decrementAllowance(u)] in a row take a positive quota
    [a] of at most 2^53 down to [max(0, a - n)] and write the file
    [min(a, n)] times; a quota that is not positive is left as it is and
    nothing is written. *)
Theorem decrement_times_floor (n : nat) (u : string) (d : Disk) :
  quota u d <= 2 ^ 53 ->
  quota u (after (decrement_times n u) d) =
    (if 0 <? quota u d then Z.max 0 (quota u d - Z.of_nat n) else quota u d) /\
  writes (after (decrement_times n u) d) =
    (writes d + Z.to_nat (Z.min (quota u d) (Z.of_nat n)))%nat.
Proof.
  revert d. induction n as [|n IH]; intros d Hmax.
  - change (after (decrement_times 0 u) d) with d.
    split; [destruct (Z.ltb_spec 0 (quota u d)) |]; lia.
  - rewrite decrement_times_S.
    assert (Hq : quota u (after (decrementAllowance u) d) =
                 if 0 <? quota u d then quota u d - 1 else quota u d).
    { rewrite decrementAllowance_quota.
      destruct (Z.ltb_spec 0 (quota u d)); [|reflexivity].
      apply nearest_double_small. lia. }
    assert (Hmax1 : quota u (after (decrementAllowance u) d) <= 2 ^ 53).
    { rewrite Hq. destruct (0 <? quota u d); lia. }
    destruct (IH (after (decrementAllowance u) d) Hmax1) as [-> ->].
    rewrite Hq, decrementAllowance_writes.
    destruct (Z.ltb_spec 0 (quota u d)) as [Hpos|Hle].
    + destruct (Z.ltb_spec 0 (quota u d - 1)); split; lia.
    + destruct (Z.ltb_spec 0 (quota u d)); split; lia.
Qed.

Lemma decrement_times_floor_witness :
  let d := after (setAllowance "7" (Num 2)) (mkDisk NoFile 0) in
  quota "7" (after (decrement_times 5 "7") d) = 0 /\
  writes (after (decrement_times 5 "7") d) = 3%nat.
Proof.
  cbv zeta.
  apply (decrement_times_floor 5 "7" (after (setAllowance "7" (Num 2)) (mkDisk NoFile 0))).
  vm_compute. discriminate.
Defined.

(** X4.  After [removeFeedbackByMessageId(mid)] no stored record is linked
    to [mid], however many were; records without a link are all kept; when
    no record was linked to [mid] the file is not written at all, so a
    second call with the same identifier changes nothing. *)
Theorem removeFeedback_clears_id (mid : string) (d : Disk) :
  let d' := after (removeFeedbackByMessageId mid) d in
  Forall (fun f => messageId f <> Some mid) (feedback (store_of d')) /\
  (forall f, In f (feedback (store_of d)) -> messageId f = None ->
             In f (feedback (store_of d'))) /\
  (Forall (fun f => messageId f <> Some mid) (feedback (store_of d)) -> d' = d) /\
  after (removeFeedbackByMessageId mid) d' = d'.
Proof.
  cbv zeta.
  assert (Hnone : forall d0,
    Forall (fun f => messageId f <> Some mid) (feedback (store_of d0)) ->
    after (removeFeedbackByMessageId mid) d0 = d0).
  { intros d0 H0. unfold after, removeFeedbackByMessageId, io_bind.
    change (loadDb d0) with (store_of d0, d0). cbv beta iota zeta.
    rewrite (filter_all _ _ H0). case_bool_decide; [done | reflexivity]. }
  assert (Hclean : Forall (fun f => messageId f <> Some mid)
            (feedback (store_of (after (removeFeedbackByMessageId mid) d)))).
  { rewrite removeFeedbackByMessageId_store. cbn [feedback].
    apply Forall_forall. intros f Hf. by apply list_elem_of_filter in Hf as [Hf _]. }
  split; [exact Hclean|]. split; [|split; [apply Hnone | by apply Hnone]].
  intros f Hin Hf. rewrite removeFeedbackByMessageId_store. cbn [feedback].
  apply list_elem_of_In, list_elem_of_filter. split; [by rewrite Hf|].
  by apply list_elem_of_In.
Qed.

Lemma removeFeedback_clears_id_witness :
  let e := fun (mid : option string) =>
             mkFeedback "7" "ann" 5 EmptyString None "2024-05-01T10:00:00.000Z"
                        mid mid in
  let d := mkDisk (JsonDoc (Some [e (Some "900"); e None; e (Some "900")]) None) 3 in
  feedback (store_of (after (removeFeedbackByMessageId "900") d)) = [e None] /\
  after (removeFeedbackByMessageId "901") d = d.
Proof.
  cbv zeta. split; [vm_compute; reflexivity|].
  apply (removeFeedback_clears_id "901").
  repeat constructor; discriminate.
Defined.

End StoreMore.

(** * Further properties of the handlers that touch the file *)

Section HandlersMore.

Implicit Types (d : Disk) (m : ModalSubmit) (u : string).

(** The four ways a modal submission can end. *)
Lemma feedback_modal_cases m d :
  feedback_modal m d = (RatingRangeError, d) \/
  feedback_modal m d = (ModalNotAllowed, d) \/
  feedback_modal m d = (SavingFailed, d) \/
  (goes_through m = true /\ 0 < quota (user_id (submitter m)) d /\
   feedback_modal m d =
     (Submitted (nearest_double (quota (user_id (submitter m)) d - 1)),
      mkDisk (serialize
                (mkStore (feedback (store_of d) ++ [submitted_entry m])
                         (<[user_id (submitter m) :=
                              JNumber (nearest_double
                                         (quota (user_id (submitter m)) d - 1))]>
                            (allowances (store_of d)))))
             (S (S (writes d))))).
Proof.
  destruct (valid_rating (rating_input m)) eqn:Hv;
    [|left; by apply feedback_modal_bad_rating].
  destruct (Z.lt_ge_cases 0 (quota (user_id (submitter m)) d)) as [Hq|Hq];
    [|right; left; apply feedback_modal_no_quota; [done | unfold quota in Hq; lia]].
  destruct (post_to_log m) as [sent|] eqn:Hlog;
    [|right; right; left; by apply feedback_modal_log_throws].
  right; right; right.
  assert (Hgo : goes_through m = true)
    by (unfold goes_through; rewrite Hv, Hlog; reflexivity).
  split; [exact Hgo|]. split; [exact Hq|].
  by apply feedback_modal_accepted.
Qed.


Lemma submitted_entry_ok m : goes_through m = true -> record_ok (submitted_entry m).
Proof.
  unfold goes_through. intros H. apply andb_true_iff in H as [Hv _].
  destruct (valid_rating_parse _ Hv) as (r & Hr & Hrange).
  unfold record_ok, submitted_entry, build_entry, rating_of.
  cbn [rating messageId channelId].
  rewrite Hr. split; [exact Hrange|].
  by destruct (default None (post_to_log m)).
Qed.



Lemma post_to_log_throws m :
  log_channel (answers m) = FetchThrows \/
  embed_builds m = false \/
  (log_channel (answers m) = Fetched true /\
   send_outcome (answers m) = SendThrows) ->
  post_to_log m = None.
Proof.
  unfold post_to_log. intros [-> | [-> | [-> ->]]]; try reflexivity.
  - by destruct (log_channel (answers m)).
  - by destruct (embed_builds m).
Qed.

(** An embed that is built carries a comment of at most 1024 characters. *)
Lemma embed_bounds_comment m :
  embed_builds m = true -> (js_length (comment_input m) <= 1024)%nat.
Proof.
  unfold embed_builds, field_value_ok, comment_field. intros H.
  apply andb_true_iff in H as [_ H]. apply andb_true_iff in H as [_ H].
  destruct (comment_input m) as [|c s] eqn:E; cbn [nonempty] in H.
  - cbn. lia.
  - by apply Nat.leb_le.
Qed.

Lemma feedback_modal_not_stored m d :
  post_to_log m = None ->
  after (feedback_modal m) d = d /\
  forall left, result (feedback_modal m) d <> Submitted left.
Proof.
  intros Hlog. unfold after, result.
  destruct (feedback_modal_cases m d) as [H|[H|[H|(Hgo & _ & _)]]];
    try (rewrite H; cbn [fst snd]; split; [reflexivity | discriminate]).
  unfold goes_through in Hgo. rewrite Hlog in Hgo.
  apply andb_true_iff in Hgo as [_ Hgo]. apply bool_decide_eq_true in Hgo.
  by destruct Hgo.
Qed.

(** X6.  A failure to post to the log channel costs the member nothing: if
    the fetch of the channel or the send throws, the file is left as it was
    and no submission is confirmed.  If instead the channel is not found or
    is not text-based, a valid submission with quota left whose user field
    and comment are of a length the embed takes is still stored, with no
    link to a log message. *)
Theorem log_failure_costs_nothing (m : ModalSubmit) (d : Disk) :
  (log_channel (answers m) = FetchThrows \/
   (log_channel (answers m) = Fetched true /\
    send_outcome (answers m) = SendThrows) ->
   after (feedback_modal m) d = d /\
   forall left, result (feedback_modal m) d <> Submitted left) /\
  (log_channel (answers m) = FetchedNothing \/
   log_channel (answers m) = Fetched false ->
   fields_fit m ->
   valid_rating (rating_input m) = true ->
   0 < quota (user_id (submitter m)) d ->
   result (feedback_modal m) d
     = Submitted (nearest_double (quota (user_id (submitter m)) d - 1)) /\
   quota (user_id (submitter m)) (after (feedback_modal m) d)
     = nearest_double (quota (user_id (submitter m)) d - 1) /\
   feedback (store_of (after (feedback_modal m) d))
     = feedback (store_of d) ++ [submitted_entry m] /\
   messageId (submitted_entry m) = None /\
   channelId (submitted_entry m) = None).
Proof.
  split.
  - intros Hthrows. apply feedback_modal_not_stored, post_to_log_throws.
    destruct Hthrows as [H|H]; [by left | by right; right].
  - intros Hch Hbuilds Hv Hq. apply embed_builds_spec in Hbuilds.
    assert (Hlog : post_to_log m = Some None)
      by (unfold post_to_log; rewrite Hbuilds; by destruct Hch as [-> | ->]).
    assert (Hgo : goes_through m = true)
      by (unfold goes_through; rewrite Hv, Hlog; reflexivity).
    pose proof (feedback_modal_accepted m d Hgo Hq) as E.
    change (result (getAllowance (user_id (submitter m))) d)
      with (quota (user_id (submitter m)) d) in E.
    set (a := quota (user_id (submitter m)) d) in *.
    unfold after, result. rewrite E. cbn [fst snd].
    split; [reflexivity|]. split.
    { rewrite quota_eq, store_of_serialize. cbn [allowances].
      apply or_zero_insert_eq. }
    rewrite store_of_serialize. cbn [feedback].
    unfold submitted_entry, build_entry. cbn [messageId channelId].
    by rewrite Hlog.
Qed.

Lemma log_failure_costs_nothing_witness :
  let ann := mkUser "7" "ann" "ann#0001" in
  let d := after (setAllowance "7" (Num 2)) (mkDisk NoFile 0) in
  let broken := mkAnswers true None FetchThrows (Sent "900" "55")
                          "2024-05-01T10:00:00.000Z" in
  let absent := mkAnswers true None FetchedNothing (Sent "900" "55")
                          "2024-05-01T10:00:00.000Z" in
  after (feedback_modal (mkSubmit "4" "a" ann broken)) d = d /\
  result (feedback_modal (mkSubmit "4" "a" ann absent)) d = Submitted 1.
Proof.
  cbv zeta.
  pose (ann := mkUser "7" "ann" "ann#0001").
  pose (d := after (setAllowance "7" (Num 2)) (mkDisk NoFile 0)).
  split.
  - apply (log_failure_costs_nothing
             (mkSubmit "4" "a" ann
                (mkAnswers true None FetchThrows (Sent "900" "55")
                           "2024-05-01T10:00:00.000Z")) d).
    left. reflexivity.
  - apply (log_failure_costs_nothing
             (mkSubmit "4" "a" ann
                (mkAnswers true None FetchedNothing (Sent "900" "55")
                           "2024-05-01T10:00:00.000Z")) d);
      [by left | by apply embed_builds_spec | reflexivity | reflexivity].
Defined.

(** X21.  A comment of more than 1024 characters is refused, with or
    without a log channel: the embed cannot be built, so the file is left as
    it was, no submission is confirmed, and a member with a valid rating and
    quota left is told that something went wrong. *)
Theorem long_comment_is_refused (m : ModalSubmit) (d : Disk) :
  (1024 < js_length (comment_input m))%nat ->
  after (feedback_modal m) d = d /\
  (forall left, result (feedback_modal m) d <> Submitted left) /\
  (valid_rating (rating_input m) = true ->
   0 < quota (user_id (submitter m)) d ->
   result (feedback_modal m) d = SavingFailed).
Proof.
  intros Hlong.
  assert (Hlog : post_to_log m = None).
  { apply post_to_log_throws. right. left.
    unfold embed_builds, field_value_ok, comment_field.
    destruct (comment_input m) as [|c s] eqn:E; [cbn in Hlong; lia|].
    cbn [nonempty].
    destruct (Nat.leb_spec (js_length (String c s)) 1024) as [Hle|_]; [lia|].
    by rewrite !andb_false_r. }
  destruct (feedback_modal_not_stored m d Hlog) as [Hsame Hno].
  split; [exact Hsame|]. split; [exact Hno|].
  intros Hv Hq. unfold result. by rewrite feedback_modal_log_throws.
Qed.

Lemma long_comment_is_refused_witness :
  let ann := mkUser "7" "ann" "ann#0001" in
  let d := after (setAllowance "7" (Num 2)) (mkDisk NoFile 0) in
  let sent := mkAnswers true None (Fetched true) (Sent "900" "55")
                        "2024-05-01T10:00:00.000Z" in
  let absent := mkAnswers true None FetchedNothing (Sent "900" "55")
                          "2024-05-01T10:00:00.000Z" in
  after (feedback_modal (mkSubmit "4" long_comment ann sent)) d = d /\
  result (feedback_modal (mkSubmit "4" long_comment ann absent)) d = SavingFailed.
Proof.
  cbv zeta.
  pose (ann := mkUser "7" "ann" "ann#0001").
  pose (d := after (setAllowance "7" (Num 2)) (mkDisk NoFile 0)).
  split.
  - apply (long_comment_is_refused
             (mkSubmit "4" long_comment ann
                (mkAnswers true None (Fetched true) (Sent "900" "55")
                           "2024-05-01T10:00:00.000Z")) d).
    vm_compute. lia.
  - apply (long_comment_is_refused
             (mkSubmit "4" long_comment ann
                (mkAnswers true None FetchedNothing (Sent "900" "55")
                           "2024-05-01T10:00:00.000Z")) d);
      [vm_compute; lia | reflexivity | reflexivity].
Defined.

End HandlersMore.

(** * Further properties: commands, deletions and the whole event stream *)

Section EventsMore.

Implicit Types (d : Disk) (u : string).

(** A message either leaves the file alone or is a grant that went through. *)
Lemma messageCreate_cases (m : Message) d :
  after (messageCreate m) d = d \/
  exists t,
    author_is_bot m = false /\ has_guild m = true /\
    String.prefix "!allow" (lowered m) = true /\
    sender_is_staff (command m) = true /\
    target (command m) = Some t /\
    at_least_one (parsed_amount (command m)) /\
    after (messageCreate m) d
      = after (setAllowance (user_id t) (parsed_amount (command m))) d.
Proof.
  unfold after at 1 2, messageCreate.
  destruct (author_is_bot m) eqn:Hbot; [by left|].
  destruct (has_guild m) eqn:Hg; [|by left]. cbn [orb negb].
  destruct (String.eqb (lowered m) "ping"); [by left|].
  destruct (String.prefix "!allow" (lowered m)) eqn:Hp.
  - unfold io_bind.
    destruct (allow_command_cases (command m) d)
      as [[H|[H|H]]|(t & Hs & Ht & Hge & H)]; rewrite H;
      try by left.
    right. exists t. by repeat split.
  - left. destruct (String.eqb (lowered m) "!feedback").
    { by destruct (sender_is_staff (command m)), (panel_sent m). }
    destruct (String.eqb (lowered m) "!ticketpanel"); [|reflexivity].
    by destruct (sender_is_staff (command m)), (panel_sent m).
Qed.

(** X7.  Messages from bots, messages outside a guild and messages from
    members without the staff role never change the file, never post a
    panel and never announce a grant.  A message that does change the file
    starts with [!allow] and comes from staff, and what it does is to set
    the entry of the mentioned member to the parsed amount, which is at
    least 1: the amount itself when it is finite, and [null] when it is
    too large for a double; the quota of the member then reads as the
    amount in the first case and as 0 in the second. *)
Theorem only_a_staff_grant_changes_the_file (m : Message) (d : Disk) :
  (author_is_bot m = true \/ has_guild m = false \/
   sender_is_staff (command m) = false ->
   after (messageCreate m) d = d /\
   result (messageCreate m) d <> MsgFeedbackPanel /\
   result (messageCreate m) d <> MsgTicketPanel /\
   forall tag a, result (messageCreate m) d <> MsgAllow (AllowGranted tag a)) /\
  (after (messageCreate m) d <> d ->
   String.prefix "!allow" (lowered m) = true /\
   sender_is_staff (command m) = true /\
   exists t,
     target (command m) = Some t /\
     at_least_one (parsed_amount (command m)) /\
     store_of (after (messageCreate m) d) =
       mkStore (feedback (store_of d))
               (<[user_id t := match parsed_amount (command m) with
                               | Num a => JNumber a
                               | NaN | Infinity _ => JNull
                               end]> (allowances (store_of d))) /\
     quota (user_id t) (after (messageCreate m) d) =
       match parsed_amount (command m) with
       | Num a => a
       | NaN | Infinity _ => 0
       end).
Proof.
  split.
  - intros Hno. unfold after, result, messageCreate.
    destruct (author_is_bot m) eqn:Hbot; [by repeat split|].
    destruct (has_guild m) eqn:Hg; [|by repeat split]. cbn [orb negb].
    destruct Hno as [Hno|[Hno|Hstaff]]; try discriminate.
    destruct (String.eqb (lowered m) "ping"); [by repeat split|].
    destruct (String.prefix "!allow" (lowered m)).
    + unfold io_bind, allow_command. rewrite Hstaff. by repeat split.
    + rewrite Hstaff. cbn [negb].
      destruct (String.eqb (lowered m) "!feedback"); [by repeat split|].
      destruct (String.eqb (lowered m) "!ticketpanel"); by repeat split.
  - intros Hch.
    destruct (messageCreate_cases m d)
      as [H|(t & _ & _ & Hp & Hs & Ht & Hge & H)]; [done|].
    split; [exact Hp|]. split; [exact Hs|]. exists t.
    rewrite H, quota_eq, setAllowance_store. cbn [allowances].
    rewrite or_zero_not_a_number. by repeat split.
Qed.

Lemma only_a_staff_grant_changes_the_file_witness :
  let ann := mkUser "7" "ann" "ann#0001" in
  let d := after (setAllowance "7" (Num 1)) (mkDisk NoFile 0) in
  let msg := fun staff amount =>
    mkMessage false true ("!allow <@7> " +:+ amount)
              (mkAllow staff ["!allow"; "<@7>"; amount] (Some ann)) true in
  after (messageCreate (msg false "5")) d = d /\
  String.prefix "!allow" (lowered (msg true "5")) = true /\
  (exists t, Some ann = Some t /\
     quota (user_id t) (after (messageCreate (msg true "5")) d) = 5) /\
  (exists t, Some ann = Some t /\
     quota (user_id t) (after (messageCreate (msg true nines_310)) d) = 0).
Proof.
  cbv zeta.
  pose (ann := mkUser "7" "ann" "ann#0001").
  pose (d := after (setAllowance "7" (Num 1)) (mkDisk NoFile 0)).
  pose (msg := fun staff amount =>
    mkMessage false true ("!allow <@7> " +:+ amount)
              (mkAllow staff ["!allow"; "<@7>"; amount] (Some ann)) true).
  split; [|split; [|split]].
  - apply (only_a_staff_grant_changes_the_file (msg false "5") d).
    right. right. reflexivity.
  - apply (only_a_staff_grant_changes_the_file (msg true "5") d).
    vm_compute. discriminate.
  - destruct (only_a_staff_grant_changes_the_file (msg true "5") d) as [_ H].
    destruct H as (_ & _ & t & Ht & _ & _ & Hq); [vm_compute; discriminate|].
    exists t. split; [exact Ht | exact Hq].
  - destruct (only_a_staff_grant_changes_the_file (msg true nines_310) d) as [_ H].
    destruct H as (_ & _ & t & Ht & _ & _ & Hq); [vm_compute; discriminate|].
    exists t. split; [exact Ht | exact Hq].
Defined.

Lemma removeFeedback_untouched (mid : string) d :
  Forall (fun f => messageId f <> Some mid) (feedback (store_of d)) ->
  after (removeFeedbackByMessageId mid) d = d.
Proof.
  intros H0. unfold after, removeFeedbackByMessageId, io_bind.
  change (loadDb d) with (store_of d, d). cbv beta iota zeta.
  rewrite (filter_all _ _ H0). case_bool_decide; [done | reflexivity].
Qed.

Lemma deleted_in_cases (m : DeletedMessage) (c : string) :
  deleted_in m = Some c ->
  (deleted_channelId m = Some c /\ nonempty c = true) \/
  ((deleted_channelId m = None \/ deleted_channelId m = Some EmptyString) /\
   deleted_channel m = Some c).
Proof.
  unfold deleted_in. destruct (deleted_channelId m) as [c0|]; [|right; by split; [left|]].
  destruct c0 as [|a c0]; cbn [nonempty]; [right; by split; [right|]|].
  intros [= <-]. by left.
Qed.

(** What [messageDelete] does, when it does anything. *)
Lemma messageDelete_cases (cfg : string) (m : DeletedMessage) d :
  after (messageDelete cfg m) d = d \/
  (nonempty (deleted_id m) = true /\
   (deleted_channelId m = Some cfg \/
    (deleted_channelId m = None \/ deleted_channelId m = Some EmptyString) /\
    deleted_channel m = Some cfg) /\
   messageDelete cfg m d = removeFeedbackByMessageId (deleted_id m) d).
Proof.
  unfold after at 1.
  change (messageDelete cfg m) with
    (if negb (nonempty (deleted_id m)) then io_ret tt
     else match deleted_in m with
          | None => io_ret tt
          | Some c =>
            if negb (nonempty c) then io_ret tt
            else if negb (String.eqb c cfg) then io_ret tt
            else removeFeedbackByMessageId (deleted_id m)
          end).
  destruct (nonempty (deleted_id m)) eqn:Hid; cbn [negb]; [|by left].
  destruct (deleted_in m) as [c|] eqn:Hin; [|by left].
  destruct (nonempty c); cbn [negb]; [|by left].
  destruct (String.eqb_spec c cfg) as [->|]; cbn [negb]; [|by left].
  right. split; [reflexivity|]. split; [|reflexivity].
  destruct (deleted_in_cases m cfg Hin) as [[H _]|H]; [by left | by right].
Qed.

(** X8.  A deleted message never changes a quota.  It changes the file only
    if it has an identifier, was in the configured log channel, and some
    stored record is linked to it; and then exactly the records linked to it
    go.  The channel of the message is its [channelId]; the identifier of
    its [channel] counts only when [channelId] is missing or empty. *)
Theorem messageDelete_scope (cfg : string) (m : DeletedMessage) (d : Disk) :
  let d' := after (messageDelete cfg m) d in
  allowances (store_of d') = allowances (store_of d) /\
  (d' <> d ->
   nonempty (deleted_id m) = true /\
   (deleted_channelId m = Some cfg \/
    (deleted_channelId m = None \/ deleted_channelId m = Some EmptyString) /\
    deleted_channel m = Some cfg) /\
   Exists (fun f => messageId f = Some (deleted_id m)) (feedback (store_of d)) /\
   feedback (store_of d') =
     filter (fun f => messageId f <> Some (deleted_id m)) (feedback (store_of d))).
Proof.
  cbv zeta.
  destruct (messageDelete_cases cfg m d) as [H|(Hid & Hchan & H)].
  - rewrite H. by split.
  - assert (He : after (messageDelete cfg m) d
                 = after (removeFeedbackByMessageId (deleted_id m)) d)
      by (unfold after; by rewrite H).
    rewrite He, removeFeedbackByMessageId_store. cbn [allowances feedback].
    split; [reflexivity|]. intros Hch.
    repeat split; try assumption.
    destruct (decide (Forall (fun f => messageId f <> Some (deleted_id m))
                             (feedback (store_of d)))) as [Hall|Hnot].
    + exfalso. apply Hch. by apply removeFeedback_untouched.
    + apply not_Forall_Exists in Hnot; [|apply _].
      eapply Exists_impl; [exact Hnot|]. intros f Hf. cbn in Hf.
      by apply dec_stable.
Qed.

Lemma messageDelete_scope_witness :
  let e := fun (mid : option string) =>
             mkFeedback "7" "ann" 5 EmptyString None "2024-05-01T10:00:00.000Z"
                        mid mid in
  let d := mkDisk (JsonDoc (Some [e (Some "900"); e None]) (Some {["7" := JNumber 1]})) 0 in
  let d' := after (messageDelete "55" (mkDeleted "900" (Some "55") None)) d in
  allowances (store_of d') = allowances (store_of d) /\
  feedback (store_of d') = [e None] /\
  after (messageDelete "55" (mkDeleted "900" (Some "66") (Some "55"))) d = d.
Proof.
  cbv zeta.
  pose (e := fun (mid : option string) =>
             mkFeedback "7" "ann" 5 EmptyString None "2024-05-01T10:00:00.000Z"
                        mid mid).
  pose (d := mkDisk (JsonDoc (Some [e (Some "900"); e None]) (Some {["7" := JNumber 1]})) 0).
  destruct (messageDelete_scope "55" (mkDeleted "900" (Some "55") None) d)
    as [Hal Hch].
  split; [exact Hal|]. split.
  - apply Hch. vm_compute. discriminate.
  - vm_compute. reflexivity.
Defined.

(** X9.  Submitting feedback and then deleting its log message: the
    submission (valid rating, quota left, fields of a length the embed
    takes, message sent) stores
    a record linked to the message that was sent; the deletion, in the log
    channel, removes the records linked to that message, so the new record
    is gone again; the quota spent on the submission is not given back: it
    stays what the submission left, one less than before for a quota of at
    most 2^53. *)
Theorem deleted_feedback_is_not_refunded (cfg : string) (m : ModalSubmit)
    (id chan : string) (d : Disk) :
  valid_rating (rating_input m) = true ->
  0 < quota (user_id (submitter m)) d ->
  log_channel (answers m) = Fetched true ->
  fields_fit m ->
  send_outcome (answers m) = Sent id chan ->
  nonempty id = true -> nonempty cfg = true ->
  let d1 := after (feedback_modal m) d in
  let d2 := after (messageDelete cfg (mkDeleted id (Some cfg) None)) d1 in
  feedback (store_of d1) = feedback (store_of d) ++ [submitted_entry m] /\
  messageId (submitted_entry m) = Some id /\
  feedback (store_of d2) =
    filter (fun f => messageId f <> Some id) (feedback (store_of d)) /\
  quota (user_id (submitter m)) d2 = quota (user_id (submitter m)) d1 /\
  (quota (user_id (submitter m)) d <= 2 ^ 53 ->
   quota (user_id (submitter m)) d2 = quota (user_id (submitter m)) d - 1).
Proof.
  intros Hv Hq Hch Hbuilds Hsent Hid Hcfg d1 d2.
  apply embed_builds_spec in Hbuilds.
  assert (Hlog : post_to_log m = Some (Some (id, chan)))
    by (unfold post_to_log; by rewrite Hch, Hbuilds, Hsent).
  assert (Hgo : goes_through m = true)
    by (unfold goes_through; rewrite Hv, Hlog; reflexivity).
  assert (Hmid : messageId (submitted_entry m) = Some id)
    by (unfold submitted_entry, build_entry; cbn [messageId]; by rewrite Hlog).
  assert (Hs1 : store_of d1 =
            mkStore (feedback (store_of d) ++ [submitted_entry m])
                    (<[user_id (submitter m) :=
                         JNumber (nearest_double (quota (user_id (submitter m)) d - 1))]>
                       (allowances (store_of d)))).
  { unfold d1, after. rewrite (feedback_modal_accepted m d Hgo Hq). cbn [snd].
    apply store_of_serialize. }
  assert (Hs2 : store_of d2 =
            mkStore (filter (fun f => messageId f <> Some id) (feedback (store_of d1)))
                    (allowances (store_of d1))).
  { unfold d2, after. rewrite (messageDelete_in_log_channel cfg id None Hid Hcfg).
    apply removeFeedbackByMessageId_store. }
  split; [by rewrite Hs1|]. split; [exact Hmid|].
  rewrite !quota_eq, Hs2, Hs1. cbn [feedback allowances]. split; [|split].
  - rewrite filter_app, (filter_cons_False _ (submitted_entry m)) by (intros H; by apply H).
    by rewrite filter_nil, app_nil_r.
  - reflexivity.
  - intros Hmax. rewrite or_zero_insert_eq. apply nearest_double_small.
    rewrite quota_eq in Hq. lia.
Qed.

Lemma deleted_feedback_is_not_refunded_witness :
  let ann := mkUser "7" "ann" "ann#0001" in
  let ok := mkAnswers true None (Fetched true) (Sent "900" "55")
                      "2024-05-01T10:00:00.000Z" in
  let d := after (setAllowance "7" (Num 2)) (mkDisk NoFile 0) in
  let d1 := after (feedback_modal (mkSubmit "4" "great" ann ok)) d in
  let d2 := after (messageDelete "55" (mkDeleted "900" (Some "55") None)) d1 in
  length (feedback (store_of d1)) = 1%nat /\
  feedback (store_of d2) = [] /\ quota "7" d2 = 1.
Proof.
  cbv zeta.
  destruct (deleted_feedback_is_not_refunded "55"
              (mkSubmit "4" "great" (mkUser "7" "ann" "ann#0001")
                 (mkAnswers true None (Fetched true) (Sent "900" "55")
                            "2024-05-01T10:00:00.000Z"))
              "900" "55" (after (setAllowance "7" (Num 2)) (mkDisk NoFile 0))
              eq_refl eq_refl eq_refl
              ltac:(by apply embed_builds_spec)
              eq_refl eq_refl eq_refl)
    as (H1 & _ & H2 & _ & H3).
  split; [exact (f_equal (@length FeedbackRecord) H1)|]. split; [exact H2|].
  apply H3. vm_compute. discriminate.
Defined.

End EventsMore.

(** * Invariants of the file over every event *)

Section Invariants.

Implicit Types (d : Disk).

Lemma store_ok_intro d (fb : list FeedbackRecord) (al : gmap string JsonValue) :
  store_of d = mkStore fb al ->
  Forall record_ok fb ->
  map_Forall (fun _ v => match v with JNumber z => 0 <= z | JNull => True end) al ->
  store_ok d.
Proof.
  intros Hs Hfb Hal. unfold store_ok, no_negative_allowance. rewrite Hs. by split.
Qed.

Lemma feedback_modal_keeps_store_ok (m : ModalSubmit) d :
  store_ok d -> store_ok (after (feedback_modal m) d).
Proof.
  intros [Hfb Hal]. unfold after.
  destruct (feedback_modal_cases m d) as [H|[H|[H|(Hgo & Hpos & H)]]];
    rewrite H; cbn [snd]; try by split.
  eapply store_ok_intro; [apply store_of_serialize | |].
  - apply Forall_app. split; [exact Hfb|].
    constructor; [by apply submitted_entry_ok | constructor].
  - apply map_Forall_insert_2; [|exact Hal].
    apply nearest_double_nonneg. lia.
Qed.

Lemma messageCreate_keeps_store_ok (m : Message) d :
  store_ok d -> store_ok (after (messageCreate m) d).
Proof.
  intros [Hfb Hal].
  destruct (messageCreate_cases m d)
    as [H|(t & _ & _ & _ & _ & _ & Hge & H)]; rewrite H; [by split|].
  eapply store_ok_intro; [apply setAllowance_store | exact Hfb |].
  apply map_Forall_insert_2; [|exact Hal].
  destruct (parsed_amount (command m)); cbn in Hge |- *; (done || lia).
Qed.

Lemma messageDelete_keeps_store_ok (cfg : string) (m : DeletedMessage) d :
  store_ok d -> store_ok (after (messageDelete cfg m) d).
Proof.
  intros [Hfb Hal].
  destruct (messageDelete_cases cfg m d) as [H|(_ & _ & H)]; [by rewrite H|].
  unfold after. rewrite H.
  eapply store_ok_intro; [apply removeFeedbackByMessageId_store | | exact Hal].
  apply Forall_forall. intros f Hf. apply list_elem_of_filter in Hf as [_ Hf].
  by apply (proj1 (Forall_forall _ _) Hfb).
Qed.

Lemma feedback_create_run (u : User) d :
  feedback_create u d =
    (if quota (user_id u) d <=? 0 then ButtonNotAllowed else ButtonShowModal, d).
Proof.
  unfold feedback_create, io_bind, io_ret. rewrite getAllowance_run, quota_eq.
  cbv beta iota.
  by destruct (or_zero (allowances (store_of d) !! user_id u) <=? 0).
Qed.

Lemma bot_step_keeps_store_ok (cfg : string) (e : BotEvent) d :
  store_ok d -> store_ok (after (bot_step cfg e) d).
Proof.
  intros Hd. destruct e as [m|u|m|m|]; unfold after, bot_step, io_bind, io_ret.
  - pose proof (messageCreate_keeps_store_ok m d Hd) as H. unfold after in H.
    by destruct (messageCreate m d).
  - by rewrite feedback_create_run.
  - pose proof (feedback_modal_keeps_store_ok m d Hd) as H. unfold after in H.
    by destruct (feedback_modal m d).
  - by apply messageDelete_keeps_store_ok.
  - exact Hd.
Qed.

Lemma bot_run_cons (cfg : string) (e : BotEvent) es d :
  after (bot_run cfg (e :: es)) d = after (bot_run cfg es) (after (bot_step cfg e) d).
Proof.
  unfold after. cbn [bot_run]. unfold io_bind. by destruct (bot_step cfg e d).
Qed.

(** X10.  Whatever messages, button presses, modal submissions, message
    deletions and log requests arrive, in whatever order, a file in which
    every record has a rating from 1 to 5 and a link to its log message that
    is complete or absent, and in which no quota is negative, stays such a
    file. *)
Theorem bot_run_keeps_store_ok (cfg : string) (es : list BotEvent) (d : Disk) :
  store_ok d -> store_ok (after (bot_run cfg es) d).
Proof.
  revert d. induction es as [|e es IH]; intros d Hd; [exact Hd|].
  rewrite bot_run_cons. apply IH. by apply bot_step_keeps_store_ok.
Qed.

Lemma bot_run_keeps_store_ok_witness :
  let ann := mkUser "7" "ann" "ann#0001" in
  let ok := mkAnswers true None (Fetched true) (Sent "900" "55")
                      "2024-05-01T10:00:00.000Z" in
  store_ok
    (after (bot_run "55"
              [OnMessage (mkMessage false true "!allow <@7> 2"
                            (mkAllow true ["!allow"; "<@7>"; "2"] (Some ann)) true);
               OnButton ann;
               OnModal (mkSubmit "5" "great" ann ok);
               OnGetLogs;
               OnMessageDelete (mkDeleted "900" (Some "55") None);
               OnModal (mkSubmit "7" "bad" ann ok)])
           (mkDisk NoFile 0)).
Proof.
  cbv zeta. apply bot_run_keeps_store_ok.
  split; [constructor | apply map_Forall_empty].
Defined.

(** The rating check on a field of one character. *)
Lemma valid_rating_one_character (c : ascii) :
  valid_rating (String c EmptyString) = ((49 <=? code c) && (code c <=? 53))%N.
Proof.
  destruct c as [[] [] [] [] [] [] [] []]; vm_compute; reflexivity.
Qed.

Lemma feedback_modal_rating_error (m : ModalSubmit) d :
  result (feedback_modal m) d = RatingRangeError <->
  valid_rating (rating_input m) = false.
Proof.
  split.
  - intros H. destruct (valid_rating (rating_input m)) eqn:Hv; [|reflexivity].
    exfalso. unfold result in H.
    destruct (Z.lt_ge_cases 0 (quota (user_id (submitter m)) d)) as [Hq|Hq].
    + destruct (post_to_log m) as [sent|] eqn:Hlog.
      * rewrite feedback_modal_accepted in H; try done.
        unfold goes_through. by rewrite Hv, Hlog.
      * by rewrite feedback_modal_log_throws in H.
    + rewrite feedback_modal_no_quota in H
        by (done || (unfold quota in Hq; lia)).
      done.
  - intros Hv. unfold result. by rewrite feedback_modal_bad_rating.
Qed.

(** A byte of a character outside ASCII is no blank, no sign and no
    digit. *)
Lemma high_byte_parse (a : ascii) (r : string) :
  (128 <=? code a)%N = true ->
  is_ascii_space a = false /\
  parseInt_body (String a r) = NaN.
Proof.
  intros H.
  destruct a as [[] [] [] [] [] [] [] []]; vm_compute in H; try discriminate H;
    split; reflexivity.
Qed.

(** Skipping white space in a string of such bytes leaves such bytes. *)
Lemma skip_space_high (n : nat) :
  forall s, (String.length s <= n)%nat ->
  all_high s = true -> all_high (skip_space s) = true.
Proof.
  induction n as [|n IH]; intros [|a s] Hn Hs; try reflexivity;
    cbn [String.length] in Hn; [lia|].
  pose proof Hs as Hs0.
  cbn [all_high] in Hs. apply andb_true_iff in Hs as [Ha Hs].
  cbn [skip_space]. rewrite (proj1 (high_byte_parse a EmptyString Ha)).
  destruct s as [|b s]; [exact Hs0|].
  cbn [all_high] in Hs. apply andb_true_iff in Hs as [Hb Hs].
  cbn [String.length] in Hn.
  destruct (is_space2 a b); [apply IH; [lia | exact Hs]|].
  destruct s as [|c s]; [exact Hs0|].
  cbn [all_high] in Hs. apply andb_true_iff in Hs as [Hc Hs].
  cbn [String.length] in Hn.
  destruct (is_space3 a b c); [apply IH; [lia | exact Hs] | exact Hs0].
Qed.

(** A field made of characters outside ASCII only parses to no number. *)
Lemma parseInt_high (s : string) : all_high s = true -> parseInt s = NaN.
Proof.
  intros Hs. pose proof (skip_space_high (String.length s) s (le_n _) Hs) as H.
  unfold parseInt. destruct (skip_space s) as [|a r]; [reflexivity|].
  cbn [all_high] in H. apply andb_true_iff in H as [Ha _].
  apply (high_byte_parse a r Ha).
Qed.

(** X11.  The form lets the member type one character as the rating.  A
    one-character rating passes the rating check exactly when it is one of
    the digits 1 to 5.  Every other character gets the rating error: a
    single byte that is not one of these digits (0, 6 to 9, letters, blanks
    among them), and every character outside ASCII, whose UTF-8 bytes are
    all 128 or above. *)
Theorem one_character_rating (m : ModalSubmit) (d : Disk) :
  (forall c : ascii, rating_input m = String c EmptyString ->
     (result (feedback_modal m) d = RatingRangeError <->
      ~ (49 <= code c <= 53)%N)) /\
  (all_high (rating_input m) = true ->
   result (feedback_modal m) d = RatingRangeError).
Proof.
  split.
  - intros c Hin.
    rewrite feedback_modal_rating_error, Hin, valid_rating_one_character.
    rewrite andb_false_iff, !N.leb_nle. lia.
  - intros Hs. apply feedback_modal_rating_error.
    unfold valid_rating. by rewrite parseInt_high.
Qed.

Lemma one_character_rating_witness :
  let ann := mkUser "7" "ann" "ann#0001" in
  let ok := mkAnswers true None (Fetched true) (Sent "900" "55")
                      "2024-05-01T10:00:00.000Z" in
  let five_fullwidth :=
    String (ascii_of_N 239) (String (ascii_of_N 188) (String (ascii_of_N 149)
      EmptyString)) in
  let d := after (setAllowance "7" (Num 1)) (mkDisk NoFile 0) in
  result (feedback_modal (mkSubmit "6" "x" ann ok)) d = RatingRangeError /\
  result (feedback_modal (mkSubmit five_fullwidth "x" ann ok)) d
    = RatingRangeError.
Proof.
  cbv zeta.
  pose (ann := mkUser "7" "ann" "ann#0001").
  pose (ok := mkAnswers true None (Fetched true) (Sent "900" "55")
                        "2024-05-01T10:00:00.000Z").
  pose (d := after (setAllowance "7" (Num 1)) (mkDisk NoFile 0)).
  split.
  - apply (proj1 (one_character_rating (mkSubmit "6" "x" ann ok) d) "6"%char eq_refl).
    vm_compute. intros [_ H]. by apply H.
  - apply (one_character_rating
             (mkSubmit (String (ascii_of_N 239) (String (ascii_of_N 188)
                          (String (ascii_of_N 149) EmptyString))) "x" ann ok) d).
    reflexivity.
Defined.

End Invariants.

(** * Further properties of the ticket system *)

Section TicketsMore.

Implicit Types (s t r : string) (c : ascii).

Lemma drop_prefix_Some p s r : drop_prefix p s = Some r -> s = p +:+ r.
Proof.
  revert s. induction p as [|a p IH]; intros s H.
  - destruct s; by injection H as <-.
  - destruct s as [|b s]; [discriminate|]. cbn [drop_prefix] in H.
    destruct (Ascii.eqb_spec a b) as [->|]; [|discriminate].
    rewrite append_cons. f_equal. by apply IH.
Qed.

Lemma take_digits_spec n s :
  all_digits (take_digits n s) = true /\
  (String.length (take_digits n s) <= n)%nat /\
  exists r, s = take_digits n s +:+ r.
Proof.
  revert s. induction n as [|n IH]; intros s.
  - destruct s; cbn; repeat split; try lia; by eexists.
  - destruct s as [|c s]; [cbn; repeat split; try lia; by exists EmptyString|].
    cbn [take_digits]. destruct (is_digit c) eqn:Hc.
    + destruct (IH s) as (Hd & Hl & r & Hr). cbn [all_digits String.length].
      rewrite Hc, Hd. repeat split; [lia|]. exists r.
      rewrite append_cons. by f_equal.
    + cbn. repeat split; try lia. by eexists.
Qed.

Lemma match_here_Some s id :
  match_here s = Some id ->
  is_snowflake id = true /\ exists r, s = ("UserID:" +:+ id) +:+ r.
Proof.
  unfold match_here. destruct (drop_prefix "UserID:" s) as [rest|] eqn:Hp;
    [|discriminate].
  destruct (take_digits_spec 19 rest) as (Hd & Hl & r & Hr).
  destruct (17 <=? String.length (take_digits 19 rest))%nat eqn:Hmin;
    [|discriminate].
  intros H. assert (Hid : take_digits 19 rest = id) by congruence.
  rewrite <- Hid. clear H Hid. split.
  - unfold is_snowflake. rewrite Hd, Hmin. cbn [andb]. by apply Nat.leb_le.
  - exists r. rewrite append_assoc, <- Hr. by apply drop_prefix_Some.
Qed.

Lemma includes_cons_r s c t : includes s t = true -> includes s (String c t) = true.
Proof. intros H. cbn [includes]. rewrite H. apply orb_true_r. Qed.

(** Whatever the topic, what the pattern extracts is 17 to 19 digits that
    stand in the topic right after [UserID:]. *)
Lemma match_user_id_Some s id :
  match_user_id s = Some id ->
  is_snowflake id = true /\ includes ("UserID:" +:+ id) s = true.
Proof.
  induction s as [|c s IH]; [discriminate|].
  rewrite match_user_id_cons.
  destruct (match_here (String c s)) as [ds|] eqn:Hh.
  - intros [= <-]. destruct (match_here_Some _ _ Hh) as (Hsn & r & Hr).
    split; [exact Hsn|]. rewrite Hr. apply includes_prefix, prefix_append.
  - intros H. destruct (IH H) as [Hsn Hinc]. split; [exact Hsn|].
    by apply includes_cons_r.
Qed.

(** X12.  Whatever the topic of the channel, the member that Notify writes
    to, and the member that Close sends its notice to, was fetched by an
    identifier of 17 to 19 decimal digits that stands in the topic right
    after [UserID:]; both buttons do nothing for a member without the staff
    role; Close by staff, whether or not an owner was found, schedules the
    deletion of the channel exactly when its reply to the press goes
    through. *)
Theorem ticket_buttons_use_the_topic (staff : bool) (chan_topic : option string)
    (fetch : string -> option User) (dm_ok reply_ok : bool) (user : User) :
  (ticket_notify staff chan_topic fetch dm_ok = Notified user \/
   close_notice (ticket_close staff chan_topic fetch reply_ok) = Some user ->
   staff = true /\
   exists id, is_snowflake id = true /\
     names_member id (or_empty chan_topic) /\
     fetch id = Some user) /\
  (staff = false ->
   ticket_notify staff chan_topic fetch dm_ok = NotifyNoPermission /\
   ticket_close staff chan_topic fetch reply_ok
     = mkClose CloseNoPermission None false) /\
  (staff = true ->
   close_reply (ticket_close staff chan_topic fetch reply_ok) = CloseClosing /\
   close_deletes (ticket_close staff chan_topic fetch reply_ok) = reply_ok).
Proof.
  split; [|split].
  - unfold ticket_notify, ticket_close. destruct staff; cbn [negb close_notice].
    + destruct (match_user_id (or_empty chan_topic)) as [id|] eqn:Hm.
      * destruct (match_user_id_Some _ _ Hm) as [Hsn Hinc].
        apply includes_spec in Hinc.
        intros H. split; [reflexivity|]. exists id. repeat split; try assumption.
        destruct H as [H|H]; [|exact H].
        destruct (fetch id) as [w|]; [|discriminate].
        destruct dm_ok; [|discriminate]. by injection H as ->.
      * intros [H|H]; discriminate.
    + intros [H|H]; discriminate.
  - by intros ->.
  - by intros ->.
Qed.

Lemma ticket_buttons_use_the_topic_witness :
  let ann := mkUser "123456789012345678" "ann" "ann#0001" in
  let fetch := fun id => if String.eqb id "123456789012345678" then Some ann else None in
  let topic := Some (ticket_topic ann "bug") in
  (exists id, is_snowflake id = true /\
     names_member id (or_empty topic) /\ fetch id = Some ann) /\
  close_deletes (ticket_close true topic fetch false) = false.
Proof.
  cbv zeta.
  pose (ann := mkUser "123456789012345678" "ann" "ann#0001").
  split.
  - apply (ticket_buttons_use_the_topic true (Some (ticket_topic ann "bug"))
             (fun id => if String.eqb id "123456789012345678" then Some ann else None)
             true true ann).
    left. reflexivity.
  - apply (ticket_buttons_use_the_topic true (Some (ticket_topic ann "bug"))
             (fun id => if String.eqb id "123456789012345678" then Some ann else None)
             true false ann).
    reflexivity.
Defined.

(** The scan finds a channel whenever the guild has one that matches. *)
Lemma scan_finds (cache : list Channel) (category ch : Channel) (u : User)
    (selection : string) (ext : Creation) :
  cache_get TICKET_CATEGORY_ID cache = Some category ->
  channel_type category = GuildCategory ->
  In ch cache -> is_ticket_of (user_id u) ch = true ->
  exists existing,
    ticket_select (Some cache) u selection ext =
      mkOutcome (TicketAlreadyOpen existing) None cache /\
    In existing cache /\ is_ticket_of (user_id u) existing = true.
Proof.
  intros Hcat Htype Hin Hch. unfold ticket_select. rewrite Hcat, Htype.
  destruct (List.find (is_ticket_of (user_id u)) cache) as [existing|] eqn:Hfind.
  - exists existing. destruct (List.find_some _ _ Hfind). by repeat split.
  - pose proof (List.find_none _ _ Hfind ch Hin). congruence.
Qed.

(** X13.  The scan for an open ticket looks for [UserID:<id>] anywhere in a
    topic, so it cannot tell an identifier from a longer one that begins
    with it: while a member has a ticket, every member whose identifier is a
    prefix of theirs is told that they already have one, is pointed to a
    channel, and gets no ticket. *)
Theorem longer_identifier_blocks_shorter (cache : list Channel)
    (category : Channel) (other me : User) (id theirs mine : string)
    (ext : Creation) :
  cache_get TICKET_CATEGORY_ID cache = Some category ->
  channel_type category = GuildCategory ->
  In (mkChannel id GuildText (Some TICKET_CATEGORY_ID)
                (Some (ticket_topic other theirs))) cache ->
  String.prefix (user_id me) (user_id other) = true ->
  exists existing,
    reply (ticket_select (Some cache) me mine ext) = TicketAlreadyOpen existing /\
    In existing cache /\
    created (ticket_select (Some cache) me mine ext) = None.
Proof.
  intros Hcat Htype Hin Hpre.
  destruct (prefix_split _ _ Hpre) as [r Hr].
  assert (Hch : is_ticket_of (user_id me)
            (mkChannel id GuildText (Some TICKET_CATEGORY_ID)
                       (Some (ticket_topic other theirs))) = true).
  { unfold is_ticket_of. cbn [parentId topic]. rewrite String.eqb_refl.
    apply andb_true_iff. split; [reflexivity|].
    apply andb_true_iff. split; [reflexivity|].
    unfold ticket_topic. rewrite Hr.
    replace ("Ticket for " +:+ user_tag other +:+ " (UserID:"
             +:+ (user_id me +:+ r) +:+ ") | Type: " +:+ prettyTicketLabel theirs)
      with (("Ticket for " +:+ user_tag other +:+ " (")
            +:+ ("UserID:" +:+ user_id me)
            +:+ r +:+ ") | Type: " +:+ prettyTicketLabel theirs).
    - apply includes_append.
    - by rewrite !append_assoc. }
  destruct (scan_finds cache category _ me mine ext Hcat Htype Hin Hch)
    as (existing & -> & Hex & _).
  exists existing. by repeat split.
Qed.

Lemma longer_identifier_blocks_shorter_witness :
  let category := mkChannel TICKET_CATEGORY_ID GuildCategory None None in
  let bob := mkUser "123456789012345678" "bob" "bob" in
  let ann := mkUser "12345678901234567" "ann" "ann" in
  let his := mkChannel "500" GuildText (Some TICKET_CATEGORY_ID)
                       (Some (ticket_topic bob "bug")) in
  exists existing,
    reply (ticket_select (Some [category; his]) ann "other"
                         (mkCreation (Some "501") true))
      = TicketAlreadyOpen existing /\
    In existing [category; his] /\
    created (ticket_select (Some [category; his]) ann "other"
                           (mkCreation (Some "501") true)) = None.
Proof.
  cbv zeta.
  apply (longer_identifier_blocks_shorter
           [mkChannel TICKET_CATEGORY_ID GuildCategory None None;
            mkChannel "500" GuildText (Some TICKET_CATEGORY_ID)
              (Some (ticket_topic (mkUser "123456789012345678" "bob" "bob") "bug"))]
           (mkChannel TICKET_CATEGORY_ID GuildCategory None None)
           (mkUser "123456789012345678" "bob" "bob")
           (mkUser "12345678901234567" "ann" "ann")
           "500" "bug" "other" (mkCreation (Some "501") true));
    try reflexivity.
  right. left. reflexivity.
Defined.

End TicketsMore.

(** * Further properties: bounds of the owner pattern, the life of a ticket *)

Section TicketLife.

Implicit Types (s t r : string) (c : ascii).

Lemma digit_is_not_U c : is_digit c = true -> Ascii.eqb "U" c = false.
Proof.
  intros H. destruct (Ascii.eqb_spec "U" c) as [<-|]; [discriminate | reflexivity].
Qed.

Lemma match_user_id_over_digits s r :
  all_digits s = true -> match_user_id (s +:+ r) = match_user_id r.
Proof.
  induction s as [|c s IH]; [reflexivity|].
  cbn [all_digits]. intros H. apply andb_true_iff in H as [Hc Hs].
  rewrite append_cons, match_user_id_cons.
  unfold match_here. cbn [drop_prefix]. rewrite (digit_is_not_U c Hc).
  by apply IH.
Qed.

Lemma take_digits_substring n s r :
  all_digits s = true -> (n <= String.length s)%nat ->
  take_digits n (s +:+ r) = String.substring 0 n s.
Proof.
  revert s. induction n as [|n IH]; intros s Hs Hn.
  - destruct s; [by destruct r | reflexivity].
  - destruct s as [|c s]; [cbn in Hn; lia|].
    cbn [all_digits] in Hs. apply andb_true_iff in Hs as [Hc Hs].
    rewrite append_cons. cbn [take_digits String.substring]. rewrite Hc.
    f_equal. apply IH; [exact Hs | cbn in Hn; lia].
Qed.

Lemma substring_length n s :
  (n <= String.length s)%nat -> String.length (String.substring 0 n s) = n.
Proof.
  revert s. induction n as [|n IH]; intros s Hn; [by destruct s|].
  destruct s as [|c s]; [cbn in Hn; lia|].
  cbn [String.substring String.length]. f_equal. apply IH. cbn in Hn. lia.
Qed.

(** With no match in the tag, the search reaches the identifier. *)
Lemma match_user_id_reaches_identifier (u : User) (selection : string) :
  match_user_id (user_tag u) = None ->
  match_user_id (ticket_topic u selection) =
    match_user_id ("UserID:" +:+ user_id u +:+ ") | Type: "
                   +:+ prettyTicketLabel selection).
Proof.
  intros Htag. unfold ticket_topic.
  set (tail := ") | Type: " +:+ prettyTicketLabel selection).
  change ("Ticket for " +:+ user_tag u +:+ " (UserID:" +:+ user_id u +:+ tail)
    with ("Ticket for " +:+
          (user_tag u +:+ String " " ("(" +:+ "UserID:" +:+ user_id u +:+ tail))).
  assert (Hskip : forall s, match_user_id ("Ticket for " +:+ s) = match_user_id s)
    by reflexivity.
  rewrite Hskip, match_user_id_before_space, Htag.
  reflexivity.
Qed.

(** X14.  The owner pattern reads 17 to 19 digits, and an identifier of
    another length does not survive the round trip through the topic (the
    tag holding no match of its own): of an identifier of 20 or more digits
    only the first 19 come back, and an identifier of fewer than 17 digits
    is not found at all, so that the search goes on in the type label. *)
Theorem identifier_length_bounds (u : User) (selection : string) :
  all_digits (user_id u) = true ->
  match_user_id (user_tag u) = None ->
  ((19 < String.length (user_id u))%nat ->
   match_user_id (ticket_topic u selection)
     = Some (String.substring 0 19 (user_id u))) /\
  ((String.length (user_id u) < 17)%nat ->
   match_user_id (ticket_topic u selection)
     = match_user_id (prettyTicketLabel selection)).
Proof.
  intros Hd Htag. rewrite (match_user_id_reaches_identifier u selection Htag).
  set (tail := ") | Type: " +:+ prettyTicketLabel selection).
  assert (Hhere : match_here ("UserID:" +:+ user_id u +:+ tail) =
            let ds := take_digits 19 (user_id u +:+ tail) in
            if (17 <=? String.length ds)%nat then Some ds else None)
    by reflexivity.
  destruct ("UserID:" +:+ user_id u +:+ tail) as [|c0 rest0] eqn:E;
    [discriminate|].
  rewrite match_user_id_cons, Hhere. cbv zeta. split.
  - intros Hlong. rewrite take_digits_substring by (done || lia).
    rewrite substring_length by lia. reflexivity.
  - intros Hshort. rewrite take_digits_all by (done || lia).
    destruct (Nat.leb_spec 17 (String.length (user_id u))) as [|_]; [lia|].
    assert (Hrest : rest0 = "serID:" +:+ user_id u +:+ tail).
    { change (String "U" ("serID:" +:+ user_id u +:+ tail) = String c0 rest0) in E.
      congruence. }
    rewrite Hrest.
    assert (Hskip : forall s, match_user_id ("serID:" +:+ s) = match_user_id s)
      by reflexivity.
    rewrite Hskip, match_user_id_over_digits by exact Hd.
    reflexivity.
Qed.

Lemma identifier_length_bounds_witness :
  match_user_id
    (ticket_topic (mkUser "18446744073709551615" "ann" "ann") "bug")
    = Some "1844674407370955161" /\
  match_user_id (ticket_topic (mkUser "1234567890123456" "bob" "bob") "bug")
    = None.
Proof.
  split.
  - apply (identifier_length_bounds
             (mkUser "18446744073709551615" "ann" "ann") "bug" eq_refl eq_refl).
    cbn. lia.
  - apply (identifier_length_bounds
             (mkUser "1234567890123456" "bob" "bob") "bug" eq_refl eq_refl).
    cbn. lia.
Defined.

Lemma find_app_first {A} (f : A -> bool) (l l' : list A) :
  List.find f (l ++ l') =
    match List.find f l with
    | Some x => Some x
    | None => List.find f l'
    end.
Proof.
  induction l as [|a l IH]; [reflexivity|].
  cbn [app List.find]. by destruct (f a).
Qed.

(** A creation, spelled out. *)
Lemma ticket_select_creates (cache : list Channel) (category : Channel)
    (u : User) (selection id : string) (ext : Creation) :
  cache_get TICKET_CATEGORY_ID cache = Some category ->
  channel_type category = GuildCategory ->
  List.find (is_ticket_of (user_id u)) cache = None ->
  new_channel_id ext = Some id ->
  let ch := mkChannel id GuildText (Some TICKET_CATEGORY_ID)
                      (Some (ticket_topic u selection)) in
  ticket_select (Some cache) u selection ext =
    mkOutcome (if intro_sent ext then TicketCreated ch else TicketFailed)
              (Some ch) (cache ++ [ch]).
Proof.
  intros Hcat Htype Hfind Hid. unfold ticket_select.
  by rewrite Hcat, Htype, Hfind, Hid.
Qed.

(** While the created channel is there, the member is pointed to it. *)
Lemma ticket_select_again (cache : list Channel) (category : Channel)
    (u : User) (selection selection' id : string) (ext' : Creation) :
  cache_get TICKET_CATEGORY_ID cache = Some category ->
  channel_type category = GuildCategory ->
  List.find (is_ticket_of (user_id u)) cache = None ->
  let ch := mkChannel id GuildText (Some TICKET_CATEGORY_ID)
                      (Some (ticket_topic u selection)) in
  ticket_select (Some (cache ++ [ch])) u selection' ext' =
    mkOutcome (TicketAlreadyOpen ch) None (cache ++ [ch]).
Proof.
  intros Hcat Htype Hfind ch. subst ch. unfold ticket_select, cache_get.
  rewrite find_app_first. fold (cache_get TICKET_CATEGORY_ID cache).
  rewrite Hcat, Htype, find_app_first, Hfind. cbn [List.find].
  by rewrite (new_ticket_is_found u selection id).
Qed.

(** X15.  When the platform creates the channel but the introductory message
    cannot be sent, the member is told that the creation failed, yet the
    channel exists in the guild; the member's next selection is then answered
    with a reference to that channel and creates nothing. *)
Theorem failed_introduction_leaves_the_channel (cache : list Channel)
    (category : Channel) (u : User) (selection selection' id : string)
    (ext ext' : Creation) :
  cache_get TICKET_CATEGORY_ID cache = Some category ->
  channel_type category = GuildCategory ->
  List.find (is_ticket_of (user_id u)) cache = None ->
  new_channel_id ext = Some id ->
  intro_sent ext = false ->
  let out := ticket_select (Some cache) u selection ext in
  let ch := mkChannel id GuildText (Some TICKET_CATEGORY_ID)
                      (Some (ticket_topic u selection)) in
  reply out = TicketFailed /\
  cache_after out = cache ++ [ch] /\
  reply (ticket_select (Some (cache_after out)) u selection' ext')
    = TicketAlreadyOpen ch /\
  created (ticket_select (Some (cache_after out)) u selection' ext') = None.
Proof.
  intros Hcat Htype Hfind Hid Hintro. cbv zeta.
  rewrite (ticket_select_creates cache category u selection id ext Hcat Htype Hfind Hid).
  cbv zeta. cbn [reply cache_after]. rewrite Hintro.
  rewrite (ticket_select_again cache category u selection selection' id ext'
             Hcat Htype Hfind).
  by repeat split.
Qed.

Lemma failed_introduction_leaves_the_channel_witness :
  let category := mkChannel TICKET_CATEGORY_ID GuildCategory None None in
  let ann := mkUser "123456789012345678" "ann" "ann" in
  let out := ticket_select (Some [category]) ann "bug" (mkCreation (Some "500") false) in
  reply out = TicketFailed /\ length (cache_after out) = 2%nat.
Proof.
  cbv zeta.
  destruct (failed_introduction_leaves_the_channel
              [mkChannel TICKET_CATEGORY_ID GuildCategory None None]
              (mkChannel TICKET_CATEGORY_ID GuildCategory None None)
              (mkUser "123456789012345678" "ann" "ann") "bug" "other" "500"
              (mkCreation (Some "500") false) (mkCreation (Some "501") true)
              eq_refl eq_refl eq_refl eq_refl eq_refl) as (Hr & Hc & _).
  split; [exact Hr | exact (f_equal (@length Channel) Hc)].
Defined.

Lemma filter_all_true {A} (f : A -> bool) (l : list A) :
  Forall (fun x => f x = true) l -> List.filter f l = l.
Proof.
  induction 1 as [|a l Ha _ IH]; [reflexivity|].
  cbn [List.filter]. by rewrite Ha, IH.
Qed.

(** X16.  The life of a ticket.  A member with no open ticket who selects a
    type gets a text channel under the ticket category whose topic names
    them; while that channel exists a further selection creates nothing and
    points to it; once the channel is deleted the guild is as it was before
    and the member's next selection creates a ticket again. *)
Theorem ticket_can_be_reopened (cache : list Channel) (category : Channel)
    (u : User) (selection selection' id id' : string) (ext ext' : Creation) :
  cache_get TICKET_CATEGORY_ID cache = Some category ->
  channel_type category = GuildCategory ->
  List.find (is_ticket_of (user_id u)) cache = None ->
  Forall (fun existing => not_id id existing = true) cache ->
  new_channel_id ext = Some id ->
  new_channel_id ext' = Some id' ->
  let ch := mkChannel id GuildText (Some TICKET_CATEGORY_ID)
                      (Some (ticket_topic u selection)) in
  let open := cache_after (ticket_select (Some cache) u selection ext) in
  let closed := List.filter (not_id id) open in
  created (ticket_select (Some cache) u selection ext) = Some ch /\
  open = cache ++ [ch] /\
  ticket_select (Some open) u selection' ext' =
    mkOutcome (TicketAlreadyOpen ch) None open /\
  closed = cache /\
  created (ticket_select (Some closed) u selection' ext') =
    Some (mkChannel id' GuildText (Some TICKET_CATEGORY_ID)
                    (Some (ticket_topic u selection'))).
Proof.
  intros Hcat Htype Hfind Hfresh Hid Hid'. cbv zeta.
  rewrite (ticket_select_creates cache category u selection id ext Hcat Htype Hfind Hid).
  cbv zeta. cbn [created cache_after].
  rewrite (ticket_select_again cache category u selection selection' id ext'
             Hcat Htype Hfind).
  assert (Hclosed : List.filter (not_id id)
            (cache ++ [mkChannel id GuildText (Some TICKET_CATEGORY_ID)
                                 (Some (ticket_topic u selection))]) = cache).
  { rewrite List.filter_app, (filter_all_true _ _ Hfresh). cbn [List.filter].
    unfold not_id at 1. cbn [channel_id]. rewrite String.eqb_refl. cbn [negb].
    apply app_nil_r. }
  rewrite Hclosed.
  rewrite (ticket_select_creates cache category u selection' id' ext' Hcat Htype Hfind Hid').
  by repeat split.
Qed.

Lemma ticket_can_be_reopened_witness :
  let category := mkChannel TICKET_CATEGORY_ID GuildCategory None None in
  let ann := mkUser "123456789012345678" "ann" "ann" in
  let open := cache_after (ticket_select (Some [category]) ann "bug"
                                         (mkCreation (Some "500") true)) in
  List.filter (not_id "500") open = [category] /\
  reply (ticket_select (Some open) ann "other" (mkCreation (Some "501") true))
    <> TicketCreated (mkChannel "501" GuildText (Some TICKET_CATEGORY_ID)
                                (Some (ticket_topic ann "other"))).
Proof.
  cbv zeta.
  destruct (ticket_can_be_reopened
              [mkChannel TICKET_CATEGORY_ID GuildCategory None None]
              (mkChannel TICKET_CATEGORY_ID GuildCategory None None)
              (mkUser "123456789012345678" "ann" "ann") "bug" "other" "500" "501"
              (mkCreation (Some "500") true) (mkCreation (Some "501") true)
              eq_refl eq_refl eq_refl ltac:(repeat constructor) eq_refl eq_refl)
    as (_ & _ & Hagain & Hclosed & _).
  split; [exact Hclosed|]. cbv zeta in Hagain. rewrite Hagain. discriminate.
Defined.

End TicketLife.

(** * Further properties: the channel name, the button and the form *)

Section NamesAndGates.

Lemma to_lower_ok (c : ascii) :
  is_upper c = true -> is_lower_alnum (to_lower c) = true.
Proof.
  destruct c as [[] [] [] [] [] [] [] []]; vm_compute; intros; congruence.
Qed.

Lemma lower_alnum_ok (n : nat) :
  forall s : string, (String.length s <= n)%nat ->
  all_lower_alnum (lower_alnum s) = true.
Proof.
  induction n as [|n IH]; intros s Hn.
  - destruct s; [reflexivity | cbn in Hn; lia].
  - destruct s as [|a s1]; [reflexivity|].
    cbn [String.length] in Hn. cbn [lower_alnum].
    destruct (is_upper a) eqn:Hu.
    { cbn [all_lower_alnum]. rewrite (to_lower_ok a Hu), IH by lia. reflexivity. }
    destruct (is_lower_alnum a) eqn:Hl.
    { cbn [all_lower_alnum]. rewrite Hl, IH by lia. reflexivity. }
    destruct s1 as [|b s2]; [reflexivity|]. cbn [String.length] in Hn.
    destruct ((code a =? 196) && (code b =? 176))%N.
    { cbn [all_lower_alnum]. rewrite IH by lia. reflexivity. }
    destruct s2 as [|c s3]; [apply IH; cbn [String.length]; lia|].
    cbn [String.length] in Hn.
    destruct ((code a =? 226) && (code b =? 132) && (code c =? 170))%N.
    { cbn [all_lower_alnum]. rewrite IH by lia. reflexivity. }
    apply IH. cbn [String.length]. lia.
Qed.

Lemma all_lower_alnum_substring (n : nat) (s : string) :
  all_lower_alnum s = true -> all_lower_alnum (String.substring 0 n s) = true.
Proof.
  revert s. induction n as [|n IH]; intros s Hs; [by destruct s|].
  destruct s as [|c s]; [reflexivity|].
  cbn [all_lower_alnum] in Hs. apply andb_true_iff in Hs as [Hc Hs].
  cbn [String.substring all_lower_alnum]. by rewrite Hc, IH.
Qed.

Lemma substring_length_min (n : nat) (s : string) :
  String.length (String.substring 0 n s) = Nat.min n (String.length s).
Proof.
  revert s. induction n as [|n IH]; intros s; [by destruct s|].
  destruct s as [|c s]; [reflexivity|].
  cbn [String.substring String.length Nat.min]. by rewrite IH.
Qed.

Lemma baseName_ok (u : User) :
  all_lower_alnum (baseName u) = true /\ (1 <= String.length (baseName u))%nat.
Proof.
  unfold baseName. cbv zeta.
  pose proof (lower_alnum_ok _ (user_name u) (Nat.le_refl _)) as Hok.
  destruct (lower_alnum (user_name u)) as [|c s]; cbn [nonempty].
  - split; [reflexivity | cbn; lia].
  - split; [exact Hok | cbn; lia].
Qed.

(** X17.  Whatever the member's username, the name given to a ticket channel
    is [ticket-] followed by 1 to 83 characters, each a lower-case letter or
    a digit, so at most 90 characters in all; a username with no letter or
    digit to keep gives [ticket-user]. *)
Theorem channel_name_is_safe (u : User) :
  (exists rest,
     channelName u = "ticket-" +:+ rest /\
     all_lower_alnum rest = true /\
     (1 <= String.length rest <= 83)%nat) /\
  (String.length (channelName u) <= 90)%nat /\
  (lower_alnum (user_name u) = EmptyString -> channelName u = "ticket-user").
Proof.
  assert (Hname : channelName u = "ticket-" +:+ String.substring 0 83 (baseName u))
    by reflexivity.
  destruct (baseName_ok u) as [Hok Hlen].
  split; [|split].
  - exists (String.substring 0 83 (baseName u)). split; [exact Hname|].
    split; [by apply all_lower_alnum_substring|].
    rewrite substring_length_min. lia.
  - rewrite Hname.
    change (String.length ("ticket-" +:+ String.substring 0 83 (baseName u)))
      with (7 + String.length (String.substring 0 83 (baseName u)))%nat.
    rewrite substring_length_min. lia.
  - intros Hempty. rewrite Hname. unfold baseName. rewrite Hempty. reflexivity.
Qed.

(** X18.  The button and the form apply the same gate.  Pressing the button
    never changes the file; it opens the form exactly when the member's quota
    is positive; and on the same file the button refuses exactly when a
    submission with a valid rating would be refused for lack of quota. *)
Theorem button_and_form_agree (u : User) (m : ModalSubmit) (d : Disk) :
  user_id (submitter m) = user_id u ->
  valid_rating (rating_input m) = true ->
  after (feedback_create u) d = d /\
  (result (feedback_create u) d = ButtonShowModal <-> 0 < quota (user_id u) d) /\
  (result (feedback_create u) d = ButtonNotAllowed <->
   result (feedback_modal m) d = ModalNotAllowed).
Proof.
  intros Hu Hv. unfold after, result. rewrite feedback_create_run. cbn [fst snd].
  split; [reflexivity|].
  destruct (Z.leb_spec (quota (user_id u) d) 0) as [Hle|Hpos].
  - split; [split; [discriminate | lia]|].
    rewrite feedback_modal_no_quota; [done | exact Hv |].
    rewrite Hu. exact Hle.
  - split; [by split|]. split; [discriminate|].
    intros H. exfalso. rewrite <- Hu in Hpos.
    destruct (post_to_log m) as [sent|] eqn:Hlog.
    + rewrite feedback_modal_accepted in H; [discriminate | | exact Hpos].
      unfold goes_through. by rewrite Hv, Hlog.
    + by rewrite feedback_modal_log_throws in H.
Qed.

Lemma button_and_form_agree_witness :
  let ann := mkUser "7" "ann" "ann#0001" in
  let d := after (setAllowance "7" (Num 1)) (mkDisk NoFile 0) in
  result (feedback_create ann) d = ButtonShowModal.
Proof.
  cbv zeta.
  apply (button_and_form_agree (mkUser "7" "ann" "ann#0001")
           (mkSubmit "4" "x" (mkUser "7" "ann" "ann#0001")
              (mkAnswers true None (Fetched true) (Sent "900" "55")
                         "2024-05-01T10:00:00.000Z"))
           (after (setAllowance "7" (Num 1)) (mkDisk NoFile 0)) eq_refl eq_refl).
  reflexivity.
Defined.

End NamesAndGates.

(** * Further properties: what the log endpoint shows of a submission *)

Section ListedSubmission.

(** A confirmation is given only to a submission that went through with
    quota left. *)
Lemma feedback_modal_submitted (m : ModalSubmit) (d : Disk) (left : Z) :
  result (feedback_modal m) d = Submitted left ->
  goes_through m = true /\ 0 < quota (user_id (submitter m)) d.
Proof.
  unfold result.
  destruct (feedback_modal_cases m d) as [H|[H|[H|(Hgo & Hpos & _)]]];
    try (rewrite H; discriminate).
  by split.
Qed.

(** X19.  A submission that is accepted, that is, answered with the
    confirmation, is stored as it was made: the record carries the
    submitter's identifier and name, the rating the field parses to and the
    comment as typed, which is at most 1024 characters long; and the log
    endpoint, asked right after, lists that record first, before all older
    ones. *)
Theorem accepted_submission_is_listed_first (m : ModalSubmit) (d : Disk)
    (left : Z) :
  result (feedback_modal m) d = Submitted left ->
  let d' := after (feedback_modal m) d in
  exists e,
    result get_feedback_logs d' = Json200 (e :: rev (feedback (store_of d))) /\
    userId e = user_id (submitter m) /\
    username e = user_name (submitter m) /\
    parseInt (rating_input m) = Num (rating e) /\
    comment e = comment_input m /\
    (js_length (comment e) <= 1024)%nat.
Proof.
  intros Hsub d'.
  destruct (feedback_modal_submitted m d left Hsub) as [Hgo Hq].
  assert (Hs : store_of d' =
            mkStore (feedback (store_of d) ++ [submitted_entry m])
                    (<[user_id (submitter m) :=
                         JNumber (nearest_double (quota (user_id (submitter m)) d - 1))]>
                       (allowances (store_of d)))).
  { unfold d', after. rewrite (feedback_modal_accepted m d Hgo Hq). cbn [snd].
    apply store_of_serialize. }
  exists (submitted_entry m). split.
  - unfold result, get_feedback_logs, io_bind, io_ret.
    change (loadDb d') with (store_of d', d'). cbn [fst]. rewrite Hs.
    cbn [feedback]. by rewrite rev_app_distr.
  - unfold goes_through in Hgo. apply andb_true_iff in Hgo as [Hv Hlog].
    destruct (valid_rating_parse _ Hv) as (r & Hr & _).
    repeat split.
    + unfold submitted_entry, build_entry, rating_of. cbn [rating]. by rewrite Hr.
    + apply bool_decide_eq_true in Hlog as [sent Hsent].
      change (comment (submitted_entry m)) with (comment_input m).
      apply (embed_bounds_comment m). unfold post_to_log in Hsent.
      destruct (embed_builds m); [reflexivity|].
      by destruct (log_channel (answers m)).
Qed.

Lemma accepted_submission_is_listed_first_witness :
  let ann := mkUser "7" "ann" "ann#0001" in
  let ok := mkAnswers true None (Fetched true) (Sent "900" "55")
                      "2024-05-01T10:00:00.000Z" in
  let m := mkSubmit " 4" "great" ann ok in
  let d := after (setAllowance "7" (Num 1)) (mkDisk NoFile 0) in
  exists e,
    result get_feedback_logs (after (feedback_modal m) d) = Json200 [e] /\
    parseInt " 4" = Num (rating e) /\ comment e = "great".
Proof.
  cbv zeta.
  destruct (accepted_submission_is_listed_first
              (mkSubmit " 4" "great" (mkUser "7" "ann" "ann#0001")
                 (mkAnswers true None (Fetched true) (Sent "900" "55")
                            "2024-05-01T10:00:00.000Z"))
              (after (setAllowance "7" (Num 1)) (mkDisk NoFile 0))
              0 eq_refl) as (e & Hlist & _ & _ & Hr & Hc & _).
  exists e. split; [exact Hlist|]. split; [exact Hr | exact Hc].
Defined.

End ListedSubmission.
